(** * Agno streaming chat API: session store, agent factory, streaming relay

    A shallow embedding of [main.py].  The process-wide dictionary
    [session_store] is a finite map from session ids to message lists; the
    handlers are written in a small state-and-exception monad over the
    process state; the async generator [stream_agent_response] additionally
    carries the list of events it has yielded so far.

    What the program reads from outside is an explicit environment: the
    successive readings of [datetime.now()], the successive results of
    [uuid.uuid4()], the variable GROQ_API_KEY and the constructor of the
    agent framework.  An agent's streaming call is the finite sequence of
    chunks it produces, ended by exhaustion or by a raised exception. *)

From Stdlib Require Import ZArith NArith String Ascii List Lia Sorted.
From stdpp Require Import gmap strings list fin_maps.

Open Scope Z_scope.
Open Scope string_scope.
Open Scope list_scope.

(** ** Results, and the state-and-exception monad *)

Inductive Result (E A : Type) : Type :=
| Ok (a : A)
| Raise (e : E).
Arguments Ok {E A} a.
Arguments Raise {E A} e.

(** [M E S A]: a computation over a state [S] that returns an [A] or raises
    an [E].  A raised exception keeps the state reached so far: Python does
    not roll mutations back. *)
Definition M (E S A : Type) : Type := S -> Result E A * S.

Definition ret {E S A} (a : A) : M E S A := fun s => (Ok a, s).

Definition raise {E S A} (e : E) : M E S A := fun s => (Raise e, s).

Definition bind {E S A B} (m : M E S A) (k : A -> M E S B) : M E S B :=
  fun s =>
    match m s with
    | (Ok a, s') => k a s'
    | (Raise e, s') => (Raise e, s')
    end.

(** [try: body except Exception as e: handler e] *)
Definition try_except {E E' S A} (body : M E S A) (handler : E -> M E' S A) : M E' S A :=
  fun s =>
    match body s with
    | (Ok a, s') => (Ok a, s')
    | (Raise e, s') => handler e s'
    end.

Definition of_result {E S A} (r : Result E A) : M E S A := fun s => (r, s).

Notation "x <- c1 ;; c2" := (bind c1 (fun x => c2))
  (at level 100, c1 at next level, right associativity).
Notation "c1 ;; c2" := (bind c1 (fun _ => c2))
  (at level 100, right associativity).

(** ** Data model *)

(** A history entry: the dict with keys "role", "content", "timestamp".  The
    timestamp is kept as the clock reading it was rendered from
    (microseconds); [isoformat()] is an order-preserving rendering of it. *)
Record Message : Type := mkMessage {
  role : string;
  content : string;
  timestamp : Z
}.

(** Exceptions of class [Exception], with [str(e)]. *)
Inductive Exc : Type := Exception (msg : string).

Definition str (e : Exc) : string := match e with Exception msg => msg end.

(** [HTTPException(status_code=..., detail=...)] *)
Inductive HTTPExc : Type := HTTPException (status_code : Z) (detail : string).

(** The values a chunk's [content] attribute is read at; [py_str] is
    Python's [str()] on them. *)
Inductive PyVal : Type :=
| PyNone
| PyStr (s : string)
| PyBool (b : bool).

Definition py_str (v : PyVal) : string :=
  match v with
  | PyNone => "None"
  | PyStr s => s
  | PyBool true => "True"
  | PyBool false => "False"
  end.

(** A chunk produced by [agent.run(message, stream=True)]: an object with a
    [content] attribute, a plain string, or anything else. *)
Inductive Chunk : Type :=
| ChunkObject (chunk_content : PyVal)
| ChunkStr (s : string)
| ChunkOther.

(** The behaviour of the response generator: each [next] yields a chunk,
    stops, or raises. *)
Inductive Stream : Type :=
| SStop
| SRaise (e : Exc)
| SYield (chunk : Chunk) (rest : Stream).

(** The keyword arguments [create_research_agent] passes to [Agent(...)]. *)
Record AgentConfig : Type := mkAgentConfig {
  name : string;
  agent_role : string;
  model_id : string;
  temperature : Z;
  tools : list string;
  instructions : list string;
  markdown : bool;
  debug_mode : bool
}.

(** An agent of the external framework: what it was configured with, and
    what [run(message, stream=True)] does: raise, or return a generator. *)
Record Agent : Type := mkAgent {
  config : AgentConfig;
  run : string -> Result Exc Stream
}.

(** The payload of an SSE frame [data: <json>\n\n]. *)
Inductive Event : Type :=
| EvStart (session_id : string)
| EvToken (fragment : string)
| EvDone (session_id : string)
| EvError (error : string).

(** What the process reads from outside. *)
Record Env : Type := mkEnv {
  datetime_now : nat -> Z;          (* the n-th reading of datetime.now() *)
  uuid4 : nat -> N;                 (* the n-th result of uuid.uuid4() *)
  GROQ_API_KEY : option string;     (* os.getenv("GROQ_API_KEY") *)
  Agent_init : AgentConfig -> Result Exc Agent   (* Agent(...), may raise *)
}.

(** The process state: the global [session_store] and how many times the
    clock and the uuid generator have been read. *)
Record World : Type := mkWorld {
  session_store : gmap string (list Message);
  now_calls : nat;
  uuid_calls : nat
}.

Definition initial_world : World :=
  {| session_store := ∅; now_calls := 0; uuid_calls := 0 |}.

Definition set_store (f : gmap string (list Message) -> gmap string (list Message))
    (w : World) : World :=
  {| session_store := f (session_store w);
     now_calls := now_calls w;
     uuid_calls := uuid_calls w |}.

(** ** Python helpers *)

(** Truth value of a [str]: only the empty string is falsy. *)
Definition truthy (s : string) : bool :=
  match s with
  | EmptyString => false
  | String _ _ => true
  end.

(** Truth value of an [Optional[str]]: [None] and the empty string are falsy. *)
Definition truthy_opt (o : option string) : bool :=
  match o with
  | None => false
  | Some s => truthy s
  end.

(** [l[-n:]] *)
Definition py_last_n {A} (n : nat) (l : list A) : list A :=
  skipn (length l - n)%nat l.

(** [str(uuid)]: 32 lower-case hexadecimal digits grouped 8-4-4-4-12. *)
Definition hex_digit (n : N) : ascii :=
  match n with
  | 0%N => "0" | 1%N => "1" | 2%N => "2" | 3%N => "3"
  | 4%N => "4" | 5%N => "5" | 6%N => "6" | 7%N => "7"
  | 8%N => "8" | 9%N => "9" | 10%N => "a" | 11%N => "b"
  | 12%N => "c" | 13%N => "d" | 14%N => "e" | _ => "f"
  end%char.

(** The [k] hexadecimal digits of [n] from digit position [pos + k - 1] down
    to [pos], followed by [tail]. *)
Fixpoint hex_group (k : nat) (pos : N) (n : N) (tail : string) : string :=
  match k with
  | O => tail
  | S k' =>
      String (hex_digit (N.land (N.shiftr n (4 * (pos + N.of_nat k'))) 15))
             (hex_group k' pos n tail)
  end.

Definition str_uuid (u : N) : string :=
  hex_group 8 24 u ("-" +:+
  hex_group 4 20 u ("-" +:+
  hex_group 4 16 u ("-" +:+
  hex_group 4 12 u ("-" +:+
  hex_group 12 0 u "")))).

Arguments hex_group : simpl never.
Arguments str_uuid : simpl never.

(** ** The session store and the handlers *)

Section Server.

Variable env : Env.

(** [datetime.now()] *)
Definition now {E} : M E World Z :=
  fun w =>
    (Ok (datetime_now env (now_calls w)),
     {| session_store := session_store w;
        now_calls := S (now_calls w);
        uuid_calls := uuid_calls w |}).

(** [str(uuid.uuid4())] *)
Definition new_uuid {E} : M E World string :=
  fun w =>
    (Ok (str_uuid (uuid4 env (uuid_calls w))),
     {| session_store := session_store w;
        now_calls := now_calls w;
        uuid_calls := S (uuid_calls w) |}).

Definition get_store {E} : M E World (gmap string (list Message)) :=
  fun w => (Ok (session_store w), w).

Definition modify_store {E} (f : gmap string (list Message) -> gmap string (list Message))
    : M E World unit :=
  fun w => (Ok tt, set_store f w).

(** [key in session_store] *)
Definition contains (store : gmap string (list Message)) (key : string) : bool :=
  match store !! key with
  | Some _ => true
  | None => false
  end.

(** [session_id or alt], for an [Optional[str]] on the left. *)
Definition or_else {E S} (session_id : option string) (alt : M E S string) : M E S string :=
  match session_id with
  | Some sid => if truthy sid then ret sid else alt
  | None => alt
  end.

Definition get_or_create_session_id {E} (session_id : option string) : M E World string :=
  let create : M E World string :=
    new_session_id <- or_else session_id new_uuid ;;
    store <- get_store ;;
    (if negb (contains store new_session_id)
     then modify_store <[new_session_id := []]>
     else ret tt) ;;
    ret new_session_id in
  store <- get_store ;;
  match session_id with
  | Some sid => if truthy sid && contains store sid then ret sid else create
  | None => create
  end.

Definition add_to_session_history {E} (session_id role content : string) : M E World unit :=
  store <- get_store ;;
  (if negb (contains store session_id)
   then modify_store <[session_id := []]>
   else ret tt) ;;
  t <- now ;;
  modify_store (fun store =>
    match store !! session_id with
    | Some history =>
        <[session_id := history ++ [mkMessage role content t]]> store
    | None => store
    end).

(** *** Agent factory *)

Definition nl : string := String (ascii_of_nat 10) EmptyString.

Definition base_instructions : list string :=
  [ "You are a helpful assistant.";
    "When asked about current information, use DuckDuckGo search.";
    "Always use the search tool for questions about news, weather, or current events.";
    "Do no Add special symbols and emojis" ].

Definition context_header : string := nl +:+ nl +:+ "Previous conversation:" +:+ nl.

(** One turn of [for msg in history[-6:]]. *)
Definition add_context_line (conversation_context : string) (msg : Message) : string :=
  conversation_context +:+ role msg +:+ ": " +:+ content msg +:+ nl.

(** The keyword arguments of [Agent(...)] for a given instruction list. *)
Definition agent_config (instructions : list string) : AgentConfig :=
  {| name := "Research Assistant";
     agent_role := "Expert research assistant";
     model_id := "openai/gpt-oss-120b";
     temperature := 0;
     tools := ["DuckDuckGoTools"; "Newspaper4kTools"];
     instructions := instructions;
     markdown := true;
     debug_mode := false |}.

Definition create_research_agent (session_id : string) : M Exc World Agent :=
  store <- get_store ;;
  let history := default [] (store !! session_id) in
  let conversation_context :=
    match history with
    | [] => ""
    | _ :: _ => fold_left add_context_line (py_last_n 6 history) context_header
    end in
  let instructions :=
    if truthy conversation_context
    then base_instructions ++ [conversation_context]
    else base_instructions in
  of_result (Agent_init env (agent_config instructions)).

(** *** Streaming relay *)

(** The async generator runs over the process state and the events it has
    yielded so far. *)
Definition Gen (A : Type) : Type := M Exc (World * list Event) A.

Definition lift {E A} (m : M E World A) : M E (World * list Event) A :=
  fun s =>
    match m (fst s) with
    | (r, w') => (r, (w', snd s))
    end.

Definition yield (ev : Event) : Gen unit :=
  fun s => (Ok tt, (fst s, snd s ++ [ev])).

(** [await asyncio.sleep(0.01)]: a suspension point, no effect on the state. *)
Definition asyncio_sleep : Gen unit := ret tt.

(** The text extracted from a chunk: [str(chunk.content)] when the attribute
    exists and is not [None], the chunk itself when it is a [str], and the
    empty string otherwise. *)
Definition chunk_text (chunk : Chunk) : string :=
  match chunk with
  | ChunkObject PyNone => ""
  | ChunkObject v => py_str v
  | ChunkStr s => s
  | ChunkOther => ""
  end.

(** [for chunk in response_generator: ...], returning [full_response_text]. *)
Fixpoint for_chunks (response_generator : Stream) (full_response_text : string)
    : Gen string :=
  match response_generator with
  | SStop => ret full_response_text
  | SRaise e => raise e
  | SYield chunk rest =>
      let content := chunk_text chunk in
      if truthy content then
        let full_response_text := full_response_text +:+ content in
        yield (EvToken content) ;;
        asyncio_sleep ;;
        for_chunks rest full_response_text
      else for_chunks rest full_response_text
  end.

Definition stream_agent_response (agent : Agent) (message session_id : string)
    : Gen unit :=
  try_except
    (lift (add_to_session_history session_id "user" message) ;;
     yield (EvStart session_id) ;;
     asyncio_sleep ;;
     let full_response_text := "" in
     response_generator <- of_result (run agent message) ;;
     full_response_text <- for_chunks response_generator full_response_text ;;
     (if truthy full_response_text
      then lift (add_to_session_history session_id "assistant" full_response_text)
      else ret tt) ;;
     yield (EvDone session_id))
    (fun e =>
       let error_data := EvError (str e) in
       yield error_data).

(** Running the generator to exhaustion from a process state: the events
    yielded, in order, and the state left behind. *)
Definition run_relay (agent : Agent) (message session_id : string) (w : World)
    : list Event * World :=
  match stream_agent_response agent message session_id (w, []) with
  | (_, (w', events)) => (events, w')
  end.

(** *** HTTP surface *)

(** The fields of the request body.  The constraint [min_length=1] on the
    message is enforced where a body is turned into a request, before the
    handler runs: [ChatRequest_validate] below. *)
Record ChatRequest : Type := mkChatRequest {
  message : string;
  req_session_id : option string
}.

Record SessionInfo : Type := mkSessionInfo {
  info_session_id : string;
  message_count : nat;
  last_message : option Z
}.

Inductive Response : Type :=
| StreamingResponse (agent : Agent) (message session_id : string)
| SessionsResponse (sessions : list SessionInfo)
| SessionResponse (session_id : string) (history : list Message)
| MessageResponse (message : string)
| HealthResponse (status : string) (active_sessions : nat)
                 (agno_version : string) (groq_api_configured : bool).

Definition chat_stream (request : ChatRequest) : M HTTPExc World Response :=
  if negb (truthy_opt (GROQ_API_KEY env))
  then raise (HTTPException 500 "GROQ_API_KEY missing")
  else
    session_id <- get_or_create_session_id (req_session_id request) ;;
    agent <- try_except (create_research_agent session_id)
               (fun e => raise (HTTPException 500
                                  ("Agent creation failed: " +:+ str e))) ;;
    ret (StreamingResponse agent (message request) session_id).

(** The summaries are listed in the order of [map_to_list]; Python lists them
    in insertion order. *)
Definition list_sessions : M HTTPExc World Response :=
  store <- get_store ;;
  ret (SessionsResponse
         (map (fun '(session_id, history) =>
                 {| info_session_id := session_id;
                    message_count := length history;
                    last_message := timestamp <$> last history |})
              (map_to_list store))).

Definition get_session (session_id : string) : M HTTPExc World Response :=
  store <- get_store ;;
  match store !! session_id with
  | None => raise (HTTPException 404 "Session not found")
  | Some history => ret (SessionResponse session_id history)
  end.

Definition delete_session (session_id : string) : M HTTPExc World Response :=
  store <- get_store ;;
  if negb (contains store session_id)
  then raise (HTTPException 404 "Session not found")
  else
    modify_store (delete session_id) ;;
    ret (MessageResponse ("Session " +:+ session_id +:+ " deleted successfully")).

Definition health_check : M HTTPExc World Response :=
  store <- get_store ;;
  ret (HealthResponse "healthy" (size store) "2.0" (truthy_opt (GROQ_API_KEY env))).

End Server.

(** ** Specification vocabulary *)

(** The history a session id stands for; an absent session has none. *)
Definition history_of (w : World) (session_id : string) : list Message :=
  default [] (session_store w !! session_id).

(** No session is named by the empty string. *)
Definition store_wf (w : World) : Prop := session_store w !! "" = None.

(** A sequence of calls [add_to_session_history(session_id, role, content)],
    one per pair of [msgs], in order. *)
Fixpoint append_all {E} (env : Env) (session_id : string)
    (msgs : list (string * string)) : M E World unit :=
  match msgs with
  | [] => ret tt
  | (r, c) :: rest =>
      add_to_session_history env session_id r c ;;
      append_all env session_id rest
  end.

Definition nondecreasing (l : list Z) : Prop :=
  forall (i j : nat) (x y : Z),
    (i <= j)%nat -> l !! i = Some x -> l !! j = Some y -> x <= y.

(** Successive readings of the clock never go back. *)
Definition clock_monotone (env : Env) : Prop :=
  forall i j : nat, (i <= j)%nat -> datetime_now env i <= datetime_now env j.

(** The entries that [msgs] become when appended from clock reading [n] on. *)
Fixpoint stamped (env : Env) (n : nat) (msgs : list (string * string)) : list Message :=
  match msgs with
  | [] => []
  | (r, c) :: rest => mkMessage r c (datetime_now env n) :: stamped env (S n) rest
  end.

(** The state after one append: the entry goes to the end of the session's
    history (an absent session starts empty) and the clock was read once. *)
Definition appended (env : Env) (session_id r c : string) (w : World) : World :=
  {| session_store :=
       <[session_id := history_of w session_id
                       ++ [mkMessage r c (datetime_now env (now_calls w))]]>
         (session_store w);
     now_calls := S (now_calls w);
     uuid_calls := uuid_calls w |}.

(** One operation on the store respects the histories it found: a session
    is gone as a whole, or its history is the old one with entries added at
    the end. *)
Definition append_only (s s' : gmap string (list Message)) : Prop :=
  forall (sid : string) (h : list Message),
    s !! sid = Some h ->
    s' !! sid = None \/ exists new : list Message, s' !! sid = Some (h ++ new).

(** The same, with no session removed. *)
Definition extends (s s' : gmap string (list Message)) : Prop :=
  forall (sid : string) (h : list Message),
    s !! sid = Some h -> exists new : list Message, s' !! sid = Some (h ++ new).

(** The fragments a response generator gives rise to: the non-empty texts of
    its chunks, in order. *)
Fixpoint fragments (g : Stream) : list string :=
  match g with
  | SStop => []
  | SRaise _ => []
  | SYield chunk rest =>
      if truthy (chunk_text chunk)
      then chunk_text chunk :: fragments rest
      else fragments rest
  end.

(** How the generator ends: exhausted, or with a raised exception. *)
Fixpoint raised (g : Stream) : option Exc :=
  match g with
  | SStop => None
  | SRaise e => Some e
  | SYield _ rest => raised rest
  end.

(** The exception the agent's streaming call raises on a message, if any:
    from the call itself or while the generator is consumed. *)
Definition agent_raises (agent : Agent) (message : string) : option Exc :=
  match run agent message with
  | Raise e => Some e
  | Ok g => raised g
  end.

(** Concatenation of fragments, in order. *)
Definition join (l : list string) : string := fold_right String.append "" l.

(** The fragments carried by the [token] events of a sequence, in order. *)
Definition token_fragments (events : list Event) : list string :=
  omap (fun ev => match ev with EvToken c => Some c | _ => None end) events.

Definition is_error (ev : Event) : bool :=
  match ev with EvError _ => true | _ => false end.

Definition is_done (ev : Event) : bool :=
  match ev with EvDone _ => true | _ => false end.

Definition is_start (ev : Event) : bool :=
  match ev with EvStart _ => true | _ => false end.

Definition count (p : Event -> bool) (events : list Event) : nat :=
  length (List.filter p events).

(** The process state a run of the relay leaves behind. *)
Definition relay_world (env : Env) (agent : Agent) (message session_id : string)
    (w : World) : World :=
  let w1 := appended env session_id "user" message w in
  match run agent message with
  | Raise _ => w1
  | Ok g =>
      match raised g with
      | Some _ => w1
      | None =>
          if truthy (join (fragments g))
          then appended env session_id "assistant" (join (fragments g)) w1
          else w1
      end
  end.

(** The events a run of the relay yields. *)
Definition relay_events (agent : Agent) (message session_id : string) : list Event :=
  match run agent message with
  | Raise e => [EvStart session_id; EvError (str e)]
  | Ok g =>
      EvStart session_id :: map EvToken (fragments g)
      ++ [match raised g with
          | Some e => EvError (str e)
          | None => EvDone session_id
          end]
  end.

(** One line of the context block. *)
Definition context_line (msg : Message) : string :=
  role msg +:+ ": " +:+ content msg +:+ nl.

(** The id a call of [get_or_create_session_id] settles on: the given one
    when it is usable, the next result of the generator otherwise. *)
Definition resolved_id (env : Env) (session_id : option string) (w : World) : string :=
  match session_id with
  | Some (String a s) => String a s
  | _ => str_uuid (uuid4 env (uuid_calls w))
  end.

(** ** Concrete inputs *)

Module Examples.

Definition plain_agent (behaviour : Result Exc Stream) : Agent :=
  {| config := agent_config base_instructions; run := fun _ => behaviour |}.

(** Two text chunks, one chunk without text, then exhaustion. *)
Definition agent_hello : Agent :=
  plain_agent (Ok (SYield (ChunkStr "Hel")
                  (SYield ChunkOther
                  (SYield (ChunkObject (PyStr "lo")) SStop)))).

(** The same chunks, then an exception. *)
Definition agent_breaks : Agent :=
  plain_agent (Ok (SYield (ChunkStr "Hel")
                  (SYield ChunkOther
                  (SYield (ChunkObject (PyStr "lo"))
                  (SRaise (Exception "connection reset")))))).

(** A generator that is exhausted at once. *)
Definition agent_silent : Agent := plain_agent (Ok SStop).

(** A clock that ticks once per reading, uuids counted up, a configured
    key, and a framework that builds silent agents. *)
Definition env_ok : Env :=
  {| datetime_now := fun n => Z.of_nat n;
     uuid4 := fun n => N.of_nat n;
     GROQ_API_KEY := Some "gsk_test";
     Agent_init := fun cfg => Ok {| config := cfg; run := fun _ => Ok SStop |} |}.


(** A wall clock set back between two readings: 5, then 3 from then on. *)
Definition env_clock_back : Env :=
  {| datetime_now := fun n => match n with O => 5 | S _ => 3 end;
     uuid4 := fun n => N.of_nat n;
     GROQ_API_KEY := Some "gsk_test";
     Agent_init := fun cfg => Ok {| config := cfg; run := fun _ => Ok SStop |} |}.

(** A store with one session, "s1", holding one exchange. *)
Definition world_s1 : World :=
  {| session_store :=
       {[ "s1" := [mkMessage "user" "hi" 0; mkMessage "assistant" "Hello" 1] ]};
     now_calls := 2;
     uuid_calls := 0 |}.

Definition eight_messages : list Message :=
  map (fun n => mkMessage (if Nat.even n then "user" else "assistant")
                          (String (ascii_of_nat (97 + n)) "") (Z.of_nat n))
      (seq 0 8).

(** A store with one session, "long", holding eight entries. *)
Definition world_long : World :=
  {| session_store := {[ "long" := eight_messages ]};
     now_calls := 8;
     uuid_calls := 0 |}.

(** A generator whose results count up from
    123e4567-e89b-42d3-a456-426614174000. *)
Definition env_uuid : Env :=
  {| datetime_now := fun n => Z.of_nat n;
     uuid4 := fun n => (0x123e4567e89b42d3a456426614174000 + N.of_nat n)%N;
     GROQ_API_KEY := Some "gsk_test";
     Agent_init := fun cfg => Ok {| config := cfg; run := fun _ => Ok SStop |} |}.

(** The store after a client has chatted once under an id of its own
    choice, which is the id the generator of [env_uuid] yields next. *)
Definition world_taken : World :=
  {| session_store :=
       {[ "123e4567-e89b-42d3-a456-426614174000" := [mkMessage "user" "hi" 0] ]};
     now_calls := 1;
     uuid_calls := 0 |}.

(** The store of [world_s1], one uuid drawn. *)
Definition world_s1_drawn : World :=
  {| session_store :=
       {[ "s1" := [mkMessage "user" "hi" 0; mkMessage "assistant" "Hello" 1] ]};
     now_calls := 2;
     uuid_calls := 1 |}.

End Examples.

(** ** Requests served one after the other *)

(** The requests the HTTP surface takes: POST /chat, GET /sessions,
    GET /session/{id}, DELETE /session/{id}, GET /health. *)
Inductive Request : Type :=
| ReqChat (request : ChatRequest)
| ReqSessions
| ReqGetSession (session_id : string)
| ReqDeleteSession (session_id : string)
| ReqHealth.

(** Serving one request to the end, with no other request in between: the
    handler, and for a chat request the streaming body consumed to
    exhaustion.  The state left behind. *)
Definition serve (env : Env) (req : Request) (w : World) : World :=
  match req with
  | ReqChat request =>
      match chat_stream env request w with
      | (Ok (StreamingResponse agent message session_id), w1) =>
          snd (run_relay env agent message session_id w1)
      | (_, w1) => w1
      end
  | ReqSessions => snd (list_sessions w)
  | ReqGetSession sid => snd (get_session sid w)
  | ReqDeleteSession sid => snd (delete_session sid w)
  | ReqHealth => snd (health_check env w)
  end.

Definition serve_all (env : Env) (reqs : list Request) (w : World) : World :=
  fold_left (fun w req => serve env req w) reqs w.

(** The three ways the code writes to the process state: a session id is
    given a history if it has none (the uuid counter may move), an entry is
    appended, a session is deleted.  The relay only appends under a
    non-empty id, with role "user", or with role "assistant" and a
    non-empty text. *)
Inductive store_step (env : Env) : World -> World -> Prop :=
| step_create (sid : string) (n : nat) (w : World) :
    sid <> "" ->
    store_step env w
      {| session_store := <[sid := history_of w sid]> (session_store w);
         now_calls := now_calls w;
         uuid_calls := n |}
| step_append (sid r c : string) (w : World) :
    sid <> "" ->
    r = "user" \/ (r = "assistant" /\ c <> "") ->
    store_step env w (appended env sid r c w)
| step_delete (sid : string) (w : World) :
    store_step env w (set_store (delete sid) w).

(** Every entry carries a reading of the clock that was taken before the
    [n]-th one. *)
Definition stamped_before (env : Env) (n : nat) (h : list Message) : Prop :=
  Forall (fun m => exists k : nat, (k < n)%nat /\ timestamp m = datetime_now env k) h.

(** The chunks a response generator yields, in order. *)
Fixpoint chunks (g : Stream) : list Chunk :=
  match g with
  | SStop => []
  | SRaise _ => []
  | SYield chunk rest => chunk :: chunks rest
  end.

(** The context block the factory renders for a history: none for an empty
    one, else the header followed by the lines of its last six entries. *)
Definition context_block (h : list Message) : list string :=
  match h with
  | [] => []
  | _ :: _ => [context_header +:+ join (map context_line (py_last_n 6 h))]
  end.

(** The state after [get_or_create_session_id] settled on [sid], with the
    uuid counter at [n]. *)
Definition resolved_world (sid : string) (n : nat) (w : World) : World :=
  {| session_store := <[sid := history_of w sid]> (session_store w);
     now_calls := now_calls w;
     uuid_calls := n |}.

(** The number of active sessions GET /health reports. *)
Definition reported_sessions (env : Env) (w : World) : nat :=
  match fst (health_check env w) with
  | Ok (HealthResponse _ active_sessions _ _) => active_sessions
  | _ => 0%nat
  end.

(** The summaries GET /sessions returns. *)
Definition listed_sessions (w : World) : list SessionInfo :=
  match fst (list_sessions w) with
  | Ok (SessionsResponse sessions) => sessions
  | _ => []
  end.

(** *** POST /chat with the validation of its body *)

(** [ChatRequest(message=..., session_id=...)]: the constructor of the
    model, which enforces [Field(..., min_length=1)] on the message. *)
Definition ChatRequest_validate (message : string) (session_id : option string)
    : option ChatRequest :=
  if (1 <=? String.length message)%nat
  then Some (mkChatRequest message session_id)
  else None.

(** How POST /chat fails: the body does not validate, which the framework
    answers before the handler runs, or the handler raises. *)
Inductive PostChatError : Type :=
| RequestValidationError
| HandlerError (e : HTTPExc).

Definition status_code_of (e : PostChatError) : Z :=
  match e with
  | RequestValidationError => 422
  | HandlerError (HTTPException status_code _) => status_code
  end.

Definition post_chat (env : Env) (message : string) (session_id : option string)
    : M PostChatError World Response :=
  match ChatRequest_validate message session_id with
  | None => raise RequestValidationError
  | Some request =>
      try_except (chat_stream env request) (fun e => raise (HandlerError e))
  end.

(** ** custom_tools.py *)

Module CustomTools.

(** Here lengths and slices matter, so a Python [str] is the list of its
    code points. *)
Definition pystr : Type := list N.

(** An ASCII literal. *)
Definition lit (s : string) : pystr := map N_of_ascii (list_ascii_of_string s).

Definition LF : N := 10.
Definition CR : N := 13.
Definition degree : N := 176.

(** [s.replace(old, new)] for a one-character [old]. *)
Definition replace_char (old : N) (new : pystr) (s : pystr) : pystr :=
  flat_map (fun c => if N.eqb c old then new else [c]) s.

(** [s[:n]]: a negative [n] counts from the end. *)
Definition slice_to (n : Z) (s : pystr) : pystr :=
  if (0 <=? n)%Z then firstn (Z.to_nat n) s
  else firstn (length s - Z.to_nat (- n)) s.

Definition weather_data : gmap pystr pystr :=
  <[lit "Paris" := lit "Clear, 20" ++ [degree] ++ lit "C (68" ++ [degree]
                   ++ lit "F), Wind: 8 km/h"]>
  (<[lit "London" := lit "Rainy, 12" ++ [degree] ++ lit "C (54" ++ [degree]
                     ++ lit "F), Wind: 20 km/h"]>
  (<[lit "New York" := lit "Partly Cloudy, 18" ++ [degree] ++ lit "C (64" ++ [degree]
                       ++ lit "F), Wind: 15 km/h"]>
  (<[lit "Tokyo" := lit "Sunny, 22" ++ [degree] ++ lit "C (72" ++ [degree]
                    ++ lit "F), Wind: 10 km/h"]> ∅))).

Definition get_weather (city : pystr) : pystr :=
  let weather :=
    default (lit "Weather data for " ++ city ++ lit ": Sunny, 22" ++ [degree]
             ++ lit "C (72" ++ [degree] ++ lit "F), Wind: 10 km/h")
            (weather_data !! city) in
  lit "Current weather in " ++ city ++ lit ": " ++ weather.

(** What [requests.get] and [raise_for_status] can raise:
    [requests.exceptions.Timeout], any other [RequestException] (among them
    the [HTTPError] of a 4xx/5xx status), or another [Exception]; each with
    its [str(e)]. *)
Inductive FetchError : Type :=
| Timeout (msg : pystr)
| RequestException (msg : pystr)
| OtherException (msg : pystr).

(** The response: the error [raise_for_status()] raises, if any, and
    [response.text]. *)
Record HTTPResponse : Type := mkHTTPResponse {
  status_error : option FetchError;
  text : pystr
}.

(** [response.text.replace("\n", " ").replace("\r", "")] *)
Definition clean (t : pystr) : pystr :=
  replace_char CR [] (replace_char LF (lit " ") t).

Definition summarize_url (requests_get : pystr -> Result FetchError HTTPResponse)
    (url : pystr) (max_length : Z) : pystr :=
  let handler (e : FetchError) : pystr :=
    match e with
    | Timeout _ =>
        lit "Error: Request to " ++ url ++ lit " timed out after 10 seconds"
    | RequestException msg => lit "Error fetching URL " ++ url ++ lit ": " ++ msg
    | OtherException msg =>
        lit "Unexpected error processing " ++ url ++ lit ": " ++ msg
    end in
  match requests_get url with
  | Raise e => handler e
  | Ok response =>
      match status_error response with
      | Some e => handler e
      | None =>
          let content := clean (text response) in
          if (Z.of_nat (length content) >? max_length)%Z
          then lit "Content preview for " ++ url ++ lit ": "
               ++ slice_to max_length content ++ lit "..."
          else lit "Content for " ++ url ++ lit ": " ++ content
      end
  end.

(** A page of 26 letters on two lines, served without error. *)
Definition alphabet_page : pystr -> Result FetchError HTTPResponse :=
  fun _ => Ok {| status_error := None;
                 text := lit "abcdefghijklm" ++ [CR; LF] ++ lit "nopqrstuvwxyz" |}.

End CustomTools.

(** ** Session store: basic facts *)

Ltac unfold_monad :=
  unfold bind, ret, raise, try_except, of_result, get_store, modify_store,
    now, new_uuid, set_store, contains, or_else in *; simpl in *.

Lemma truthy_spec (s : string) : truthy s = true <-> s <> "".
Proof. destruct s; simpl; split; intros; congruence. Qed.

Lemma str_uuid_nonempty (u : N) : str_uuid u <> "".
Proof. unfold str_uuid. cbn [hex_group]. discriminate. Qed.

Lemma truthy_str_uuid (u : N) : truthy (str_uuid u) = true.
Proof. apply truthy_spec, str_uuid_nonempty. Qed.

Section StoreFacts.

Variable env : Env.
Variable E : Type.

Lemma add_to_session_history_eq (session_id r c : string) (w : World) :
  add_to_session_history (E:=E) env session_id r c w
  = (Ok tt, appended env session_id r c w).
Proof.
  unfold add_to_session_history, appended, history_of. unfold_monad.
  destruct (session_store w !! session_id) as [h|] eqn:Hs; simpl.
  - rewrite Hs. reflexivity.
  - rewrite lookup_insert_eq. rewrite insert_insert_eq. reflexivity.
Qed.

Lemma history_of_appended_eq (session_id r c : string) (w : World) :
  history_of (appended env session_id r c w) session_id
  = history_of w session_id ++ [mkMessage r c (datetime_now env (now_calls w))].
Proof. unfold history_of, appended. simpl. rewrite lookup_insert_eq. reflexivity. Qed.

Lemma lookup_appended_ne (session_id other r c : string) (w : World) :
  other <> session_id ->
  session_store (appended env session_id r c w) !! other = session_store w !! other.
Proof. intros Hne. unfold appended. simpl. rewrite lookup_insert_ne; congruence. Qed.

Lemma get_or_create_known (sid : string) (h : list Message) (w : World) :
  sid <> "" ->
  session_store w !! sid = Some h ->
  get_or_create_session_id (E:=E) env (Some sid) w = (Ok sid, w).
Proof.
  intros Hne Hs. apply truthy_spec in Hne.
  unfold get_or_create_session_id. unfold_monad. rewrite Hne, Hs. reflexivity.
Qed.

Lemma get_or_create_unknown (sid : string) (w : World) :
  sid <> "" ->
  session_store w !! sid = None ->
  get_or_create_session_id (E:=E) env (Some sid) w
  = (Ok sid, set_store <[sid := []]> w).
Proof.
  intros Hne Hs. apply truthy_spec in Hne.
  unfold get_or_create_session_id. unfold_monad. rewrite Hne, Hs. simpl.
  rewrite Hs. reflexivity.
Qed.

(** Without a usable id the generator is read once; its result is
    initialised only if it names no session yet. *)
Lemma get_or_create_generated (session_id : option string) (w : World) :
  truthy_opt session_id = false ->
  let u := str_uuid (uuid4 env (uuid_calls w)) in
  get_or_create_session_id (E:=E) env session_id w
  = (Ok u,
     {| session_store :=
          <[u := history_of w u]> (session_store w);
        now_calls := now_calls w;
        uuid_calls := S (uuid_calls w) |}).
Proof.
  intros Hf u.
  assert (Hgen :
    (new_session_id <- new_uuid env ;;
     store <- get_store ;;
     (if negb (contains store new_session_id)
      then modify_store <[new_session_id := []]>
      else ret tt) ;;
     ret new_session_id) w
    = (Ok u, {| session_store := <[u := history_of w u]> (session_store w);
                now_calls := now_calls w;
                uuid_calls := S (uuid_calls w) |}) :> Result E string * World).
  { unfold_monad. fold u. unfold history_of.
    destruct (session_store w !! u) as [h|] eqn:Hu; simpl.
    - rewrite insert_id by exact Hu. reflexivity.
    - reflexivity. }
  unfold get_or_create_session_id.
  destruct session_id as [sid|]; simpl in Hf.
  - destruct sid; [|discriminate]. exact Hgen.
  - exact Hgen.
Qed.

Lemma append_all_history (session_id : string) (msgs : list (string * string)) :
  forall w : World,
  exists w' : World,
    append_all (E:=E) env session_id msgs w = (Ok tt, w')
    /\ history_of w' session_id
       = history_of w session_id ++ stamped env (now_calls w) msgs
    /\ (forall other, other <> session_id ->
          session_store w' !! other = session_store w !! other)
    /\ (msgs <> [] -> is_Some (session_store w' !! session_id)).
Proof.
  induction msgs as [|[r c] rest IH]; intros w.
  - exists w. simpl. rewrite app_nil_r. repeat split; auto. congruence.
  - destruct (IH (appended env session_id r c w)) as (w' & Hrun & Hh & Hother & _).
    exists w'. repeat split.
    + simpl. unfold bind. rewrite add_to_session_history_eq. exact Hrun.
    + rewrite Hh, history_of_appended_eq. simpl. rewrite <- app_assoc. reflexivity.
    + intros other Hne. rewrite Hother by exact Hne. apply lookup_appended_ne, Hne.
    + intros _.
      destruct (session_store w' !! session_id) as [h|] eqn:Hs; [eauto|].
      exfalso. rewrite history_of_appended_eq in Hh.
      unfold history_of at 1 in Hh. rewrite Hs in Hh. simpl in Hh.
      symmetry in Hh. apply app_eq_nil in Hh as [Hh _].
      apply app_eq_nil in Hh as [_ Hh]. discriminate.
Qed.

Lemma stamped_length (n : nat) (msgs : list (string * string)) :
  length (stamped env n msgs) = length msgs.
Proof. revert n. induction msgs as [|[r c] rest IH]; intros n; simpl; auto. Qed.

Lemma stamped_lookup (msgs : list (string * string)) :
  forall (n i : nat),
    stamped env n msgs !! i
    = (fun rc => mkMessage (fst rc) (snd rc) (datetime_now env (n + i))) <$> msgs !! i.
Proof.
  induction msgs as [|[r c] rest IH]; intros n i.
  - reflexivity.
  - destruct i as [|i]; simpl.
    + rewrite Nat.add_0_r. reflexivity.
    + rewrite IH. replace (S n + i)%nat with (n + S i)%nat by lia. reflexivity.
Qed.

End StoreFacts.

(** ** Strings, fragments, events *)

Lemma string_app_cons (x : ascii) (a b : string) :
  String x a +:+ b = String x (a +:+ b).
Proof. reflexivity. Qed.

Lemma string_app_assoc (a b c : string) : (a +:+ b) +:+ c = a +:+ (b +:+ c).
Proof.
  induction a as [|x a IH]; [reflexivity|].
  rewrite !string_app_cons, IH. reflexivity.
Qed.

Lemma string_app_nil_r (a : string) : a +:+ "" = a.
Proof.
  induction a as [|x a IH]; [reflexivity|].
  rewrite string_app_cons, IH. reflexivity.
Qed.

Lemma truthy_app_l (a b : string) : truthy a = true -> truthy (a +:+ b) = true.
Proof. destruct a; [discriminate | reflexivity]. Qed.

Lemma fragments_truthy (g : Stream) : Forall (fun c => truthy c = true) (fragments g).
Proof.
  induction g as [| e | chunk rest IH]; simpl; try constructor.
  destruct (truthy (chunk_text chunk)) eqn:Ht; [constructor; assumption | assumption].
Qed.

Lemma join_truthy (l : list string) :
  Forall (fun c => truthy c = true) l -> truthy (join l) = negb (bool_decide (l = [])).
Proof.
  intros Hl. destruct Hl as [|c l Hc _]; simpl; [reflexivity|].
  apply truthy_app_l, Hc.
Qed.

Lemma token_fragments_tokens (l : list string) : token_fragments (map EvToken l) = l.
Proof. induction l as [|c l IH]; simpl; [reflexivity|]. unfold token_fragments in *. simpl. rewrite IH. reflexivity. Qed.

Lemma count_tokens (p : Event -> bool) (l : list string) :
  (forall c, p (EvToken c) = false) -> count p (map EvToken l) = 0%nat.
Proof.
  intros Hp. unfold count. induction l as [|c l IH]; simpl; [reflexivity|].
  rewrite Hp. exact IH.
Qed.

Lemma count_app (p : Event -> bool) (l1 l2 : list Event) :
  count p (l1 ++ l2) = (count p l1 + count p l2)%nat.
Proof. unfold count. rewrite List.filter_app, length_app. reflexivity. Qed.

(** ** Streaming relay: what one run does *)

Section RelayFacts.

Variable env : Env.

(** The loop yields one [token] per fragment and leaves the process state
    alone; it returns the accumulated text, or raises what the generator
    raised. *)
Lemma for_chunks_eq (g : Stream) :
  forall (full : string) (w : World) (out : list Event),
    for_chunks g full (w, out)
    = (match raised g with
       | None => Ok (full +:+ join (fragments g))
       | Some e => Raise e
       end,
       (w, out ++ map EvToken (fragments g))).
Proof.
  induction g as [| e | chunk rest IH]; intros full w out; simpl.
  - unfold ret. rewrite string_app_nil_r, app_nil_r. reflexivity.
  - unfold raise. rewrite app_nil_r. reflexivity.
  - destruct (truthy (chunk_text chunk)) eqn:Ht.
    + unfold bind, yield, asyncio_sleep, ret. simpl. rewrite IH.
      rewrite string_app_assoc, <- app_assoc. reflexivity.
    + apply IH.
Qed.

Lemma stream_agent_response_eq (agent : Agent) (message session_id : string) (w : World) :
  stream_agent_response env agent message session_id (w, [])
  = (Ok tt, (relay_world env agent message session_id w,
             relay_events agent message session_id)).
Proof.
  unfold stream_agent_response, relay_world, relay_events.
  unfold try_except, bind, lift, yield, asyncio_sleep, of_result, ret.
  cbn [fst snd]. rewrite add_to_session_history_eq. cbn [fst snd app].
  destruct (run agent message) as [g | e]; [| reflexivity].
  rewrite for_chunks_eq.
  destruct (raised g) as [e |]; [reflexivity |].
  change ("" +:+ join (fragments g)) with (join (fragments g)).
  destruct (truthy (join (fragments g))) eqn:Ht; cbn [fst snd].
  - rewrite add_to_session_history_eq. reflexivity.
  - reflexivity.
Qed.

Lemma run_relay_eq (agent : Agent) (message session_id : string) (w : World) :
  run_relay env agent message session_id w
  = (relay_events agent message session_id,
     relay_world env agent message session_id w).
Proof. unfold run_relay. rewrite stream_agent_response_eq. reflexivity. Qed.

End RelayFacts.

(** ** Event sequences of the shape start, tokens, one more event *)

Lemma tokens_then_lookup (frags : list string) (t ev : Event) :
  forall k : nat,
    (map EvToken frags ++ [t]) !! k = Some ev ->
    (exists c, ev = EvToken c) \/ (k = length frags /\ ev = t).
Proof.
  induction frags as [|c frags IH]; intros k Hk; simpl in Hk.
  - destruct k as [|k]; simpl in Hk; [|discriminate].
    right. split; [reflexivity | congruence].
  - destruct k as [|k]; simpl in Hk.
    + left. exists c. congruence.
    + destruct (IH k Hk) as [Htok | [Hlen Hev]]; [left; exact Htok|].
      right. split; [simpl; congruence | exact Hev].
Qed.

Lemma count_shape (p : Event -> bool) (sid : string) (frags : list string) (t : Event) :
  (forall c, p (EvToken c) = false) ->
  count p (EvStart sid :: map EvToken frags ++ [t])
  = ((if p (EvStart sid) then 1 else 0) + (if p t then 1 else 0))%nat.
Proof.
  intros Hp.
  change (EvStart sid :: map EvToken frags ++ [t])
    with ([EvStart sid] ++ map EvToken frags ++ [t]).
  rewrite !count_app, count_tokens by exact Hp.
  unfold count. simpl. destruct (p (EvStart sid)), (p t); reflexivity.
Qed.

Lemma token_fragments_shape (sid : string) (frags : list string) (t : Event) :
  (forall c, t <> EvToken c) ->
  token_fragments (EvStart sid :: map EvToken frags ++ [t]) = frags.
Proof.
  intros Ht. unfold token_fragments. simpl. rewrite omap_app.
  fold (token_fragments (map EvToken frags)). rewrite token_fragments_tokens.
  destruct t; simpl; try apply app_nil_r. exfalso. eapply Ht. reflexivity.
Qed.

(** ** The context window *)

Lemma fold_context_lines (l : list Message) :
  forall acc : string,
    fold_left add_context_line l acc = acc +:+ join (map context_line l).
Proof.
  induction l as [|m l IH]; intros acc; simpl.
  - rewrite string_app_nil_r. reflexivity.
  - rewrite IH. unfold add_context_line, context_line.
    rewrite string_app_assoc. reflexivity.
Qed.

Lemma py_last_n_length {A} (n : nat) (l : list A) :
  length (py_last_n n l) = Nat.min n (length l).
Proof. unfold py_last_n. rewrite length_skipn. lia. Qed.

Lemma py_last_n_suffix {A} (n : nat) (l : list A) :
  l = firstn (length l - n) l ++ py_last_n n l.
Proof. unfold py_last_n. symmetry. apply firstn_skipn. Qed.

Lemma py_last_n_short {A} (n : nat) (l : list A) :
  (length l <= n)%nat -> py_last_n n l = l.
Proof.
  intros Hl. unfold py_last_n.
  replace (length l - n)%nat with 0%nat by lia. reflexivity.
Qed.

(** ** Stores that only grow *)

Lemma extends_refl (s : gmap string (list Message)) : extends s s.
Proof. intros sid h Hs. exists []. rewrite app_nil_r. exact Hs. Qed.

Lemma extends_trans (s1 s2 s3 : gmap string (list Message)) :
  extends s1 s2 -> extends s2 s3 -> extends s1 s3.
Proof.
  intros H12 H23 sid h Hs.
  destruct (H12 sid h Hs) as [new1 H2].
  destruct (H23 sid _ H2) as [new2 H3].
  exists (new1 ++ new2). rewrite app_assoc. exact H3.
Qed.

Lemma extends_append_only (s s' : gmap string (list Message)) :
  extends s s' -> append_only s s'.
Proof. intros Hext sid h Hs. right. apply (Hext sid h Hs). Qed.

Lemma extends_insert_default (s : gmap string (list Message)) (sid : string)
    (new : list Message) :
  extends s (<[sid := default [] (s !! sid) ++ new]> s).
Proof.
  intros sid' h Hs. destruct (decide (sid = sid')) as [-> | Hne].
  - exists new. rewrite lookup_insert_eq, Hs. reflexivity.
  - exists []. rewrite lookup_insert_ne by exact Hne. rewrite app_nil_r. exact Hs.
Qed.

Lemma extends_appended (env : Env) (sid r c : string) (w : World) :
  extends (session_store w) (session_store (appended env sid r c w)).
Proof. unfold appended, history_of. simpl. apply extends_insert_default. Qed.

Lemma append_only_delete (s : gmap string (list Message)) (sid : string) :
  append_only s (delete sid s).
Proof.
  intros sid' h Hs. destruct (decide (sid = sid')) as [-> | Hne].
  - left. apply lookup_delete_eq.
  - right. exists []. rewrite lookup_delete_ne by exact Hne.
    rewrite app_nil_r. exact Hs.
Qed.

Section GrowthFacts.

Variable env : Env.

Lemma get_or_create_cases (E : Type) (session_id : option string) (w : World) :
  exists (sid : string) (w' : World),
    get_or_create_session_id (E:=E) env session_id w = (Ok sid, w')
    /\ sid = resolved_id env session_id w
    /\ sid <> ""
    /\ session_store w' = <[sid := history_of w sid]> (session_store w)
    /\ now_calls w' = now_calls w.
Proof.
  destruct (truthy_opt session_id) eqn:Ht.
  - destruct session_id as [sid|]; [|discriminate]. simpl in Ht.
    assert (Hne : sid <> "") by (apply truthy_spec, Ht).
    exists sid. unfold history_of.
    destruct (session_store w !! sid) as [h|] eqn:Hs.
    + exists w. rewrite (get_or_create_known env E sid h w Hne Hs).
      simpl. rewrite insert_id by exact Hs. destruct sid; [discriminate | auto].
    + exists (set_store <[sid := []]> w).
      rewrite (get_or_create_unknown env E sid w Hne Hs).
      destruct sid; [discriminate | auto].
  - eexists _, _. rewrite (get_or_create_generated env E session_id w Ht).
    split; [reflexivity|].
    split; [destruct session_id as [[|a s]|]; simpl in *; congruence|].
    split; [apply str_uuid_nonempty|]. simpl. auto.
Qed.

Lemma get_or_create_extends (E : Type) (session_id : option string) (w : World) :
  extends (session_store w)
          (session_store (snd (get_or_create_session_id (E:=E) env session_id w))).
Proof.
  destruct (get_or_create_cases E session_id w) as (sid & w' & -> & _ & _ & Hs & _).
  simpl. rewrite Hs. unfold history_of.
  rewrite <- (app_nil_r (default [] (session_store w !! sid))).
  apply extends_insert_default.
Qed.

Lemma relay_extends (agent : Agent) (message sid : string) (w : World) :
  extends (session_store w) (session_store (relay_world env agent message sid w)).
Proof.
  unfold relay_world.
  pose proof (extends_appended env sid "user" message w) as H1.
  destruct (run agent message) as [g|e]; [|exact H1].
  destruct (raised g); [exact H1|].
  destruct (truthy (join (fragments g))); [|exact H1].
  eapply extends_trans; [exact H1 | apply extends_appended].
Qed.

Lemma create_research_agent_state (sid : string) (w : World) :
  snd (create_research_agent env sid w) = w.
Proof. reflexivity. Qed.

(** The factory reads the store and hands [Agent(...)] the base rules,
    followed by the context block when the session has a history. *)
Lemma create_research_agent_eq (sid : string) (w : World) :
  create_research_agent env sid w
  = (Agent_init env
       (agent_config
          (base_instructions ++
           match history_of w sid with
           | [] => []
           | _ :: _ =>
               [context_header
                +:+ join (map context_line (py_last_n 6 (history_of w sid)))]
           end)),
     w).
Proof.
  unfold create_research_agent, history_of, bind, get_store, of_result.
  destruct (default [] (session_store w !! sid)) as [|m h] eqn:Hh.
  - reflexivity.
  - rewrite fold_context_lines.
    rewrite truthy_app_l by reflexivity. reflexivity.
Qed.

Lemma chat_stream_extends (request : ChatRequest) (w : World) :
  extends (session_store w) (session_store (snd (chat_stream env request w))).
Proof.
  unfold chat_stream.
  destruct (negb (truthy_opt (GROQ_API_KEY env))); [apply extends_refl|].
  unfold bind.
  pose proof (get_or_create_extends HTTPExc (req_session_id request) w) as Hext.
  destruct (get_or_create_session_id env (req_session_id request) w) as [[sid|e] w1];
    simpl in Hext; [|exact Hext].
  unfold try_except.
  pose proof (create_research_agent_state sid w1) as Hst.
  destruct (create_research_agent env sid w1) as [[agent|e] w2]; simpl in Hst;
    subst w2; exact Hext.
Qed.

(** *** The empty string never names a session *)

Lemma store_wf_initial : store_wf initial_world.
Proof. reflexivity. Qed.

Lemma store_wf_get_or_create (E : Type) (session_id : option string) (w : World) :
  store_wf w ->
  store_wf (snd (get_or_create_session_id (E:=E) env session_id w)).
Proof.
  intros Hwf.
  destruct (get_or_create_cases E session_id w) as (sid & w' & -> & _ & Hne & Hs & _).
  unfold store_wf. simpl. rewrite Hs, lookup_insert_ne by exact Hne. exact Hwf.
Qed.

Lemma store_wf_appended (sid r c : string) (w : World) :
  sid <> "" -> store_wf w -> store_wf (appended env sid r c w).
Proof.
  intros Hne Hwf. unfold store_wf. rewrite lookup_appended_ne by congruence.
  exact Hwf.
Qed.

Lemma store_wf_relay (agent : Agent) (message sid : string) (w : World) :
  sid <> "" -> store_wf w ->
  store_wf (snd (run_relay env agent message sid w)).
Proof.
  intros Hne Hwf. rewrite run_relay_eq. simpl. unfold relay_world.
  pose proof (store_wf_appended sid "user" message w Hne Hwf) as H1.
  destruct (run agent message) as [g|e]; [|exact H1].
  destruct (raised g); [exact H1|].
  destruct (truthy (join (fragments g))); [|exact H1].
  apply store_wf_appended; assumption.
Qed.

Lemma store_wf_delete (sid : string) (w : World) :
  store_wf w -> store_wf (snd (delete_session sid w)).
Proof.
  intros Hwf. unfold delete_session. unfold_monad.
  destruct (session_store w !! sid); simpl; [|exact Hwf].
  unfold store_wf. simpl. destruct (decide (sid = "")) as [-> | Hne].
  - apply lookup_delete_eq.
  - rewrite lookup_delete_ne by exact Hne. exact Hwf.
Qed.

End GrowthFacts.

(** * Properties of the session store *)

(** C4 (as amended): [get_or_create_session_id].  In a store where the
    empty string names no session, an id that already names a session is
    returned unchanged and the store is unmodified.  A non-empty unknown id
    is returned as it is, and a session with empty history is created for
    it.  With no id, the next result of the uuid generator is returned,
    never empty; the code does not check that it is new: when it names no
    session yet it is mapped to an empty history, and when it already names
    one that session is returned with its history as it was.  After a
    creating call [get_session] on the returned id yields an empty
    history. *)
Theorem get_or_create_session_id_spec (env : Env) (E : Type) (w : World) :
  (store_wf w ->
   forall (sid : string) (h : list Message),
     session_store w !! sid = Some h ->
     get_or_create_session_id (E:=E) env (Some sid) w = (Ok sid, w))
  /\ (forall sid : string,
        sid <> "" ->
        session_store w !! sid = None ->
        exists w' : World,
          get_or_create_session_id (E:=E) env (Some sid) w = (Ok sid, w')
          /\ session_store w' = <[sid := []]> (session_store w)
          /\ get_session sid w' = (Ok (SessionResponse sid []), w'))
  /\ (exists (u : string) (w' : World),
        get_or_create_session_id (E:=E) env None w = (Ok u, w')
        /\ u = str_uuid (uuid4 env (uuid_calls w))
        /\ u <> ""
        /\ uuid_calls w' = S (uuid_calls w)
        /\ session_store w' = <[u := history_of w u]> (session_store w)
        /\ get_session u w' = (Ok (SessionResponse u (history_of w u)), w')
        /\ (session_store w !! u = None ->
            session_store w' = <[u := []]> (session_store w)
            /\ get_session u w' = (Ok (SessionResponse u []), w'))).
Proof.
  split; [|split].
  - intros Hwf sid h Hs. apply (get_or_create_known env E sid h w); [|exact Hs].
    intros ->. unfold store_wf in Hwf. congruence.
  - intros sid Hne Hs. exists (set_store <[sid := []]> w).
    rewrite (get_or_create_unknown env E sid w Hne Hs).
    split; [reflexivity|]. split; [reflexivity|].
    unfold get_session, bind, get_store, ret. simpl.
    rewrite lookup_insert_eq. reflexivity.
  - eexists _, _.
    rewrite (get_or_create_generated env E None w eq_refl).
    split; [reflexivity|]. split; [reflexivity|].
    split; [apply str_uuid_nonempty|]. split; [reflexivity|].
    split; [reflexivity|].
    assert (Hget : forall h0,
              get_session (str_uuid (uuid4 env (uuid_calls w)))
                {| session_store :=
                     <[str_uuid (uuid4 env (uuid_calls w)) := h0]> (session_store w);
                   now_calls := now_calls w;
                   uuid_calls := S (uuid_calls w) |}
              = (Ok (SessionResponse (str_uuid (uuid4 env (uuid_calls w))) h0),
                 {| session_store :=
                      <[str_uuid (uuid4 env (uuid_calls w)) := h0]> (session_store w);
                    now_calls := now_calls w;
                    uuid_calls := S (uuid_calls w) |})).
    { intros h0. unfold get_session, bind, get_store, ret. cbn [session_store].
      rewrite lookup_insert_eq. reflexivity. }
    split; [apply Hget|].
    intros Hfresh. unfold history_of. rewrite Hfresh. cbn [from_option id].
    split; [reflexivity | apply Hget].
Qed.

Lemma get_or_create_session_id_spec_witness :
  store_wf Examples.world_s1_drawn
  /\ get_or_create_session_id (E:=Exc) Examples.env_uuid (Some "s1")
       Examples.world_s1_drawn
     = (Ok "s1", Examples.world_s1_drawn)
  /\ session_store Examples.world_s1_drawn
       !! "123e4567-e89b-42d3-a456-426614174001" = None
  /\ exists w' : World,
       get_or_create_session_id (E:=Exc) Examples.env_uuid None Examples.world_s1_drawn
       = (Ok "123e4567-e89b-42d3-a456-426614174001", w')
       /\ get_session "123e4567-e89b-42d3-a456-426614174001" w'
          = (Ok (SessionResponse "123e4567-e89b-42d3-a456-426614174001" []), w').
Proof.
  assert (Hwf : store_wf Examples.world_s1_drawn) by (vm_compute; reflexivity).
  assert (Hfresh : session_store Examples.world_s1_drawn
                     !! "123e4567-e89b-42d3-a456-426614174001" = None)
    by (vm_compute; reflexivity).
  destruct (get_or_create_session_id_spec Examples.env_uuid Exc Examples.world_s1_drawn)
    as (Hknown & _ & (u & w' & Hrun & Hu & _ & _ & _ & _ & Hnew)).
  assert (Hid : u = "123e4567-e89b-42d3-a456-426614174001")
    by (rewrite Hu; vm_compute; reflexivity).
  subst u. rewrite Hid in Hrun, Hnew.
  split; [exact Hwf|].
  split; [eapply (Hknown Hwf "s1"); vm_compute; reflexivity|].
  split; [exact Hfresh|].
  exists w'. split; [exact Hrun | exact (proj2 (Hnew Hfresh))].
Defined.

(** C4, as stated, fails where the generated id already names a session:
    a client has chatted under an id of its own choice, the generator yields
    that id, and the call without an id returns it, an id that was in the
    store before, with the history it had, not an empty one. *)
Lemma get_or_create_uuid_collision :
  serve_all Examples.env_uuid
    [ReqChat (mkChatRequest "hi" (Some "123e4567-e89b-42d3-a456-426614174000"))]
    initial_world
  = Examples.world_taken
  /\ session_store Examples.world_taken !! "123e4567-e89b-42d3-a456-426614174000"
     = Some [mkMessage "user" "hi" 0]
  /\ fst (get_or_create_session_id (E:=Exc) Examples.env_uuid None Examples.world_taken)
     = Ok "123e4567-e89b-42d3-a456-426614174000"
  /\ fst (get_session "123e4567-e89b-42d3-a456-426614174000"
            (snd (get_or_create_session_id (E:=Exc) Examples.env_uuid None
                    Examples.world_taken)))
     = Ok (SessionResponse "123e4567-e89b-42d3-a456-426614174000"
             [mkMessage "user" "hi" 0]).
Proof. repeat split; vm_compute; reflexivity. Qed.

(** C10 (as amended): an empty-string session id is treated exactly like an
    absent one.  The call never returns the empty string and never creates
    or touches a session named by the empty string; it returns the next
    result of the uuid generator and leaves every other session alone.  The
    code does not check that the generated id is new: when it names no
    session yet it is mapped to an empty history, and when it already names
    one that session is returned with its history as it was. *)
Theorem empty_session_id_like_absent (env : Env) (E : Type) (w : World) :
  get_or_create_session_id (E:=E) env (Some "") w
  = get_or_create_session_id (E:=E) env None w
  /\ exists (sid : string) (w' : World),
       get_or_create_session_id (E:=E) env (Some "") w = (Ok sid, w')
       /\ sid = str_uuid (uuid4 env (uuid_calls w))
       /\ sid <> ""
       /\ uuid_calls w' = S (uuid_calls w)
       /\ session_store w' !! "" = session_store w !! ""
       /\ (forall other, other <> sid ->
             session_store w' !! other = session_store w !! other)
       /\ session_store w' !! sid = Some (history_of w sid)
       /\ (session_store w !! sid = None ->
           session_store w' = <[sid := []]> (session_store w)
           /\ session_store w' !! sid = Some []).
Proof.
  split; [reflexivity|].
  eexists _, _.
  rewrite (get_or_create_generated env E (Some "") w eq_refl).
  split; [reflexivity|]. split; [reflexivity|].
  split; [apply str_uuid_nonempty|]. split; [reflexivity|].
  cbn [session_store].
  split; [apply lookup_insert_ne, str_uuid_nonempty|].
  split; [intros other Hne; apply lookup_insert_ne; congruence|].
  split; [apply lookup_insert_eq|].
  intros Hfresh. unfold history_of. rewrite Hfresh. cbn [from_option id].
  split; [reflexivity | apply lookup_insert_eq].
Qed.

Lemma empty_session_id_like_absent_witness :
  session_store Examples.world_s1_drawn !! "123e4567-e89b-42d3-a456-426614174001" = None
  /\ exists w' : World,
       get_or_create_session_id (E:=Exc) Examples.env_uuid (Some "")
         Examples.world_s1_drawn
       = (Ok "123e4567-e89b-42d3-a456-426614174001", w')
       /\ session_store w' !! "123e4567-e89b-42d3-a456-426614174001" = Some []
       /\ session_store w' !! "" = None.
Proof.
  assert (Hfresh : session_store Examples.world_s1_drawn
                     !! "123e4567-e89b-42d3-a456-426614174001" = None)
    by (vm_compute; reflexivity).
  destruct (empty_session_id_like_absent Examples.env_uuid Exc Examples.world_s1_drawn)
    as (_ & sid & w' & Hrun & Hsid & _ & _ & Hempty & _ & _ & Hnew).
  assert (Hid : sid = "123e4567-e89b-42d3-a456-426614174001")
    by (rewrite Hsid; vm_compute; reflexivity).
  subst sid. rewrite Hid in Hrun, Hnew.
  split; [exact Hfresh|].
  exists w'. split; [exact Hrun|]. split; [exact (proj2 (Hnew Hfresh))|].
  rewrite Hempty. vm_compute; reflexivity.
Defined.

(** C10, as stated, fails where the generated id already names a session:
    the call with the empty string returns an id that was in the store
    before, mapped to the history it had, not to an empty one. *)
Lemma empty_session_id_uuid_collision :
  session_store Examples.world_taken !! "123e4567-e89b-42d3-a456-426614174000"
  = Some [mkMessage "user" "hi" 0]
  /\ fst (get_or_create_session_id (E:=Exc) Examples.env_uuid (Some "")
            Examples.world_taken)
     = Ok "123e4567-e89b-42d3-a456-426614174000"
  /\ session_store
       (snd (get_or_create_session_id (E:=Exc) Examples.env_uuid (Some "")
               Examples.world_taken))
     !! "123e4567-e89b-42d3-a456-426614174000"
     = Some [mkMessage "user" "hi" 0]
  /\ [mkMessage "user" "hi" 0] <> [].
Proof. repeat split; try (vm_compute; reflexivity). discriminate. Qed.

(** C8: deleting an unknown session id raises HTTP 404 and leaves the store
    unchanged; deleting a known one succeeds and removes exactly that
    session: a following [get_session] on it raises HTTP 404, and every
    other session is as it was. *)
Theorem delete_session_spec (w : World) (sid : string) :
  (session_store w !! sid = None ->
     delete_session sid w = (Raise (HTTPException 404 "Session not found"), w))
  /\ (forall h : list Message,
        session_store w !! sid = Some h ->
        exists w' : World,
          delete_session sid w
          = (Ok (MessageResponse ("Session " +:+ sid +:+ " deleted successfully")), w')
          /\ session_store w' = delete sid (session_store w)
          /\ get_session sid w' = (Raise (HTTPException 404 "Session not found"), w')
          /\ (forall other : string,
                other <> sid ->
                session_store w' !! other = session_store w !! other)).
Proof.
  split.
  - intros Hs. unfold delete_session. unfold_monad. rewrite Hs. reflexivity.
  - intros h Hs. exists (set_store (delete sid) w).
    split; [|split; [|split]].
    + unfold delete_session. unfold_monad. rewrite Hs. reflexivity.
    + reflexivity.
    + unfold get_session. unfold_monad. rewrite lookup_delete_eq. reflexivity.
    + intros other Hne. simpl. apply lookup_delete_ne. congruence.
Qed.

Lemma delete_session_spec_witness :
  (session_store Examples.world_s1 !! "nope" = None
   /\ delete_session "nope" Examples.world_s1
      = (Raise (HTTPException 404 "Session not found"), Examples.world_s1))
  /\ (session_store Examples.world_s1 !! "s1"
      = Some [mkMessage "user" "hi" 0; mkMessage "assistant" "Hello" 1]
      /\ exists w' : World,
           delete_session "s1" Examples.world_s1
           = (Ok (MessageResponse "Session s1 deleted successfully"), w')
           /\ get_session "s1" w' = (Raise (HTTPException 404 "Session not found"), w')).
Proof.
  assert (H1 : session_store Examples.world_s1 !! "nope" = None)
    by (vm_compute; reflexivity).
  assert (H2 : session_store Examples.world_s1 !! "s1"
               = Some [mkMessage "user" "hi" 0; mkMessage "assistant" "Hello" 1])
    by (vm_compute; reflexivity).
  split.
  - split; [exact H1|].
    exact (proj1 (delete_session_spec Examples.world_s1 "nope") H1).
  - split; [exact H2|].
    destruct (proj2 (delete_session_spec Examples.world_s1 "s1") _ H2)
      as (w' & Hdel & _ & Hget & _).
    exists w'. split; [exact Hdel | exact Hget].
Defined.

(** C7 (as amended): appending N messages in sequence to a session that has
    no entries yet yields a history of length N whose i-th entry is the i-th
    appended message; the timestamps are the successive clock readings, and
    they are non-decreasing along the history when the clock never goes
    back. *)
Theorem append_all_in_order (env : Env) (E : Type) (sid : string)
    (msgs : list (string * string)) (w : World) :
  history_of w sid = [] ->
  exists w' : World,
    append_all (E:=E) env sid msgs w = (Ok tt, w')
    /\ length (history_of w' sid) = length msgs
    /\ (forall (i : nat) (r c : string),
          msgs !! i = Some (r, c) ->
          history_of w' sid !! i
          = Some (mkMessage r c (datetime_now env (now_calls w + i))))
    /\ (clock_monotone env -> nondecreasing (map timestamp (history_of w' sid))).
Proof.
  intros Hempty.
  destruct (append_all_history env E sid msgs w) as (w' & Hrun & Hh & _ & _).
  rewrite Hempty in Hh. simpl in Hh.
  exists w'. split; [exact Hrun|]. rewrite Hh.
  split; [apply stamped_length|]. split.
  - intros i r c Hi. rewrite stamped_lookup, Hi. reflexivity.
  - intros Hmono i j x y Hij Hi Hj.
    assert (Hts : forall k t, map timestamp (stamped env (now_calls w) msgs) !! k = Some t ->
                    t = datetime_now env (now_calls w + k)).
    { intros k t Hk.
      change (map timestamp (stamped env (now_calls w) msgs))
        with (timestamp <$> stamped env (now_calls w) msgs) in Hk.
      rewrite list_lookup_fmap, stamped_lookup in Hk.
      destruct (msgs !! k); simpl in Hk; congruence. }
    rewrite (Hts i x Hi), (Hts j y Hj). apply Hmono. lia.
Qed.

Lemma append_all_in_order_witness :
  history_of Examples.world_s1 "s2" = []
  /\ exists w' : World,
       append_all (E:=Exc) Examples.env_ok "s2"
         [("user", "a"); ("assistant", "b"); ("user", "c")] Examples.world_s1
       = (Ok tt, w')
       /\ length (history_of w' "s2") = 3%nat
       /\ nondecreasing (map timestamp (history_of w' "s2")).
Proof.
  assert (H : history_of Examples.world_s1 "s2" = []) by (vm_compute; reflexivity).
  assert (Hmono : clock_monotone Examples.env_ok)
    by (intros i j Hij; simpl; lia).
  split; [exact H|].
  destruct (append_all_in_order Examples.env_ok Exc "s2"
              [("user", "a"); ("assistant", "b"); ("user", "c")]
              Examples.world_s1 H) as (w' & Hrun & Hlen & _ & Hnd).
  exists w'. split; [exact Hrun|]. split; [exact Hlen | exact (Hnd Hmono)].
Defined.

(** C7, as stated, fails: the timestamps are readings of the wall clock, and
    when the clock is set back between two appends the later entry carries
    the smaller timestamp. *)
Lemma append_timestamps_can_decrease :
  let w' := snd (append_all (E:=Exc) Examples.env_clock_back "s"
                   [("user", "a"); ("assistant", "b")] initial_world) in
  history_of initial_world "s" = []
  /\ history_of w' "s" = [mkMessage "user" "a" 5; mkMessage "assistant" "b" 3]
  /\ ~ nondecreasing (map timestamp (history_of w' "s")).
Proof.
  assert (Hh : history_of
                 (snd (append_all (E:=Exc) Examples.env_clock_back "s"
                         [("user", "a"); ("assistant", "b")] initial_world)) "s"
               = [mkMessage "user" "a" 5; mkMessage "assistant" "b" 3])
    by (vm_compute; reflexivity).
  cbv zeta. split; [reflexivity|]. split; [exact Hh|].
  rewrite Hh. intros Hnd.
  specialize (Hnd 0%nat 1%nat 5 3 (Nat.le_succ_diag_r 0) eq_refl eq_refl). lia.
Qed.

(** * Properties of the streaming relay *)

(** C1: every run of [stream_agent_response] ends without an exception
    escaping and yields exactly one [start] first, then zero or more
    [token] events, then exactly one terminal event, [done] or [error].  An
    [error] event is the last event, there is at most one, and a sequence
    with an [error] contains no [done]. *)
Theorem relay_event_order (env : Env) (agent : Agent) (message session_id : string)
    (w : World) :
  let events := fst (run_relay env agent message session_id w) in
  fst (stream_agent_response env agent message session_id (w, [])) = Ok tt
  /\ (exists (frags : list string) (terminal : Event),
        events = EvStart session_id :: map EvToken frags ++ [terminal]
        /\ (terminal = EvDone session_id \/ exists e, terminal = EvError e))
  /\ count is_start events = 1%nat
  /\ (count is_done events + count is_error events = 1)%nat
  /\ (count is_error events <= 1)%nat
  /\ (forall (i : nat) (e : string),
        events !! i = Some (EvError e) ->
        S i = length events /\ count is_done events = 0%nat).
Proof.
  cbv zeta. rewrite run_relay_eq, stream_agent_response_eq. simpl.
  split; [reflexivity|].
  assert (Hshape : exists (frags : list string) (terminal : Event),
            relay_events agent message session_id
            = EvStart session_id :: map EvToken frags ++ [terminal]
            /\ (terminal = EvDone session_id \/ exists e, terminal = EvError e)).
  { unfold relay_events. destruct (run agent message) as [g|e].
    - exists (fragments g). eexists. split; [reflexivity|].
      destruct (raised g) as [e|]; [right; eauto | left; reflexivity].
    - exists [], (EvError (str e)). split; [reflexivity | right; eauto]. }
  split; [exact Hshape|].
  destruct Hshape as (frags & terminal & -> & Hterm).
  assert (Hs : count is_start (EvStart session_id :: map EvToken frags ++ [terminal]) = 1%nat).
  { rewrite count_shape by reflexivity.
    destruct Hterm as [-> | [e ->]]; reflexivity. }
  assert (Hde : (count is_done (EvStart session_id :: map EvToken frags ++ [terminal])
                 + count is_error (EvStart session_id :: map EvToken frags ++ [terminal])
                 = 1)%nat).
  { rewrite !count_shape by reflexivity.
    destruct Hterm as [-> | [e ->]]; reflexivity. }
  split; [exact Hs|]. split; [exact Hde|]. split; [lia|].
  intros i e Hi. destruct i as [|k]; [discriminate|]. simpl in Hi.
  destruct (tokens_then_lookup frags terminal _ k Hi) as [[c Hc] | [Hk Hev]];
    [discriminate|].
  subst terminal k. split.
  - simpl. rewrite length_app, length_map. simpl. lia.
  - rewrite count_shape by reflexivity. reflexivity.
Qed.

(** C2 (as amended): when a run of the relay ends with [done], the session's
    history gains the [user] entry carrying the input message, followed,
    when at least one [token] event was emitted, by exactly one [assistant]
    entry whose content is the concatenation, in emission order, of the
    fragments of the emitted [token] events; when no [token] event was
    emitted, the [user] entry is the only new entry. *)
Theorem relay_done_history (env : Env) (agent : Agent) (message session_id : string)
    (w : World) :
  last (fst (run_relay env agent message session_id w)) = Some (EvDone session_id) ->
  session_store (snd (run_relay env agent message session_id w)) !! session_id
  = Some (history_of w session_id
          ++ mkMessage "user" message (datetime_now env (now_calls w))
          :: match token_fragments (fst (run_relay env agent message session_id w)) with
             | [] => []
             | _ :: _ =>
                 [mkMessage "assistant"
                    (join (token_fragments
                             (fst (run_relay env agent message session_id w))))
                    (datetime_now env (S (now_calls w)))]
             end).
Proof.
  rewrite run_relay_eq. simpl. unfold relay_events, relay_world.
  destruct (run agent message) as [g|e].
  - rewrite app_comm_cons, last_snoc.
    destruct (raised g) as [e|]; [discriminate|]. intros _.
    rewrite <- app_comm_cons, token_fragments_shape by discriminate.
    rewrite (join_truthy _ (fragments_truthy g)).
    destruct (fragments g) as [|c frags] eqn:Hf; simpl.
    + rewrite lookup_insert_eq. reflexivity.
    + rewrite lookup_insert_eq, history_of_appended_eq.
      rewrite <- app_assoc. reflexivity.
  - simpl. discriminate.
Qed.

Lemma relay_done_history_witness :
  last (fst (run_relay Examples.env_ok Examples.agent_hello "again" "s1" Examples.world_s1))
  = Some (EvDone "s1")
  /\ session_store
       (snd (run_relay Examples.env_ok Examples.agent_hello "again" "s1" Examples.world_s1))
     !! "s1"
     = Some [mkMessage "user" "hi" 0; mkMessage "assistant" "Hello" 1;
             mkMessage "user" "again" 2; mkMessage "assistant" "Hello" 3].
Proof.
  assert (H : last (fst (run_relay Examples.env_ok Examples.agent_hello "again" "s1"
                           Examples.world_s1)) = Some (EvDone "s1"))
    by (vm_compute; reflexivity).
  split; [exact H|].
  rewrite (relay_done_history Examples.env_ok Examples.agent_hello "again" "s1"
             Examples.world_s1 H).
  vm_compute; reflexivity.
Defined.

(** C2, as stated, fails: a run whose generator produces no text ends with
    [done] and the history gains one entry, not two. *)
Lemma relay_done_without_text_one_entry :
  let r := run_relay Examples.env_ok Examples.agent_silent "hi" "s9" initial_world in
  fst r = [EvStart "s9"; EvDone "s9"]
  /\ last (fst r) = Some (EvDone "s9")
  /\ history_of initial_world "s9" = []
  /\ session_store (snd r) !! "s9" = Some [mkMessage "user" "hi" 0]
  /\ length (history_of (snd r) "s9")
     <> (length (history_of initial_world "s9") + 2)%nat.
Proof. cbv zeta. repeat split; try (vm_compute; reflexivity). vm_compute. lia. Qed.

(** C3: when the agent's streaming call raises, in the call itself or after
    any number of chunks, the run ends with an [error] event and the
    session's history gains exactly one entry, the [user] message; the
    fragments already emitted are not stored. *)
Theorem relay_error_history (env : Env) (agent : Agent) (message session_id : string)
    (w : World) (e : Exc) :
  agent_raises agent message = Some e ->
  last (fst (run_relay env agent message session_id w)) = Some (EvError (str e))
  /\ count is_done (fst (run_relay env agent message session_id w)) = 0%nat
  /\ session_store (snd (run_relay env agent message session_id w)) !! session_id
     = Some (history_of w session_id
             ++ [mkMessage "user" message (datetime_now env (now_calls w))])
  /\ (forall other : string,
        other <> session_id ->
        session_store (snd (run_relay env agent message session_id w)) !! other
        = session_store w !! other).
Proof.
  unfold agent_raises. intros Hraise.
  rewrite run_relay_eq. simpl. unfold relay_events, relay_world.
  destruct (run agent message) as [g|e'].
  - rewrite Hraise. rewrite app_comm_cons, last_snoc.
    split; [reflexivity|]. rewrite <- app_comm_cons.
    split; [rewrite count_shape by reflexivity; reflexivity|].
    split; [simpl; apply lookup_insert_eq|].
    intros other Hne. apply lookup_appended_ne, Hne.
  - injection Hraise as ->.
    split; [reflexivity|]. split; [reflexivity|].
    split; [simpl; apply lookup_insert_eq|].
    intros other Hne. apply lookup_appended_ne, Hne.
Qed.

Lemma relay_error_history_witness :
  agent_raises Examples.agent_breaks "again" = Some (Exception "connection reset")
  /\ fst (run_relay Examples.env_ok Examples.agent_breaks "again" "s1" Examples.world_s1)
     = [EvStart "s1"; EvToken "Hel"; EvToken "lo"; EvError "connection reset"]
  /\ session_store
       (snd (run_relay Examples.env_ok Examples.agent_breaks "again" "s1" Examples.world_s1))
     !! "s1"
     = Some [mkMessage "user" "hi" 0; mkMessage "assistant" "Hello" 1;
             mkMessage "user" "again" 2].
Proof.
  assert (H : agent_raises Examples.agent_breaks "again"
              = Some (Exception "connection reset")) by reflexivity.
  split; [exact H|]. split; [vm_compute; reflexivity|].
  destruct (relay_error_history Examples.env_ok Examples.agent_breaks "again" "s1"
              Examples.world_s1 _ H) as (_ & _ & Hstore & _).
  rewrite Hstore. vm_compute; reflexivity.
Defined.

(** * Properties of the agent factory and of the chat endpoint *)

(** C5: [create_research_agent] passes [Agent(...)] a configuration whose
    instruction list is the base instruction list followed by one context
    block rendered from the last min(6, length) entries of the session's
    history, in order: the header, then one line "role: content" per entry.
    For a session with empty or absent history the instruction list is the
    base list alone.  The model is pinned to temperature 0; the store is
    not changed. *)
Theorem create_research_agent_window (env : Env) (sid : string) (w : World) :
  let history := history_of w sid in
  let window := py_last_n 6 history in
  exists cfg : AgentConfig,
    create_research_agent env sid w = (Agent_init env cfg, w)
    /\ instructions cfg
       = base_instructions ++
         match history with
         | [] => []
         | _ :: _ => [context_header +:+ join (map context_line window)]
         end
    /\ temperature cfg = 0
    /\ model_id cfg = "openai/gpt-oss-120b"
    /\ length window = Nat.min 6 (length history)
    /\ history = firstn (length history - 6) history ++ window
    /\ (session_store w !! sid = None \/ session_store w !! sid = Some [] ->
        instructions cfg = base_instructions).
Proof.
  cbv zeta. eexists. split; [apply create_research_agent_eq|].
  split; [reflexivity|]. split; [reflexivity|]. split; [reflexivity|].
  split; [apply py_last_n_length|].
  split; [apply py_last_n_suffix|].
  intros Hs.
  assert (Hh : history_of w sid = [])
    by (unfold history_of; destruct Hs as [-> | ->]; reflexivity).
  cbn [instructions agent_config]. rewrite Hh. apply app_nil_r.
Qed.

Lemma create_research_agent_window_witness :
  (exists a : Agent,
     fst (create_research_agent Examples.env_ok "s1" Examples.world_s1) = Ok a
     /\ instructions (config a)
        = [ "You are a helpful assistant.";
            "When asked about current information, use DuckDuckGo search.";
            "Always use the search tool for questions about news, weather, or current events.";
            "Do no Add special symbols and emojis";
            nl +:+ nl +:+ "Previous conversation:" +:+ nl
            +:+ "user: hi" +:+ nl +:+ "assistant: Hello" +:+ nl ])
  /\ py_last_n 6 (history_of Examples.world_long "long")
     = [mkMessage "user" "c" 2; mkMessage "assistant" "d" 3; mkMessage "user" "e" 4;
        mkMessage "assistant" "f" 5; mkMessage "user" "g" 6; mkMessage "assistant" "h" 7]
  /\ session_store Examples.world_long !! "other" = None
  /\ exists a : Agent,
       fst (create_research_agent Examples.env_ok "other" Examples.world_long) = Ok a
       /\ instructions (config a)
          = [ "You are a helpful assistant.";
              "When asked about current information, use DuckDuckGo search.";
              "Always use the search tool for questions about news, weather, or current events.";
              "Do no Add special symbols and emojis" ].
Proof.
  assert (H : session_store Examples.world_long !! "other" = None)
    by (vm_compute; reflexivity).
  split; [|split; [vm_compute; reflexivity | split; [exact H|]]].
  - destruct (create_research_agent_window Examples.env_ok "s1" Examples.world_s1)
      as (cfg & Hrun & Hinstr & _).
    exists {| config := cfg; run := fun _ => Ok SStop |}.
    split; [rewrite Hrun; reflexivity|].
    cbn [config]. rewrite Hinstr. vm_compute; reflexivity.
  - destruct (create_research_agent_window Examples.env_ok "other" Examples.world_long)
      as (cfg & Hrun & _ & _ & _ & _ & _ & Hempty).
    exists {| config := cfg; run := fun _ => Ok SStop |}.
    split; [rewrite Hrun; reflexivity|].
    cbn [config]. rewrite (Hempty (or_introl H)). reflexivity.
Defined.

(** C6: every operation is append-only on the store it finds.  Resolving an
    id, appending, a run of the relay and the chat endpoint leave each
    existing history as a prefix of the new one; [get_session],
    [list_sessions] and [health_check] leave the state as it is;
    [delete_session] removes the named session as a whole and keeps every
    other history.  No entry is reordered, changed or removed on its own. *)
Theorem store_append_only (env : Env) (w : World) :
  (forall (E : Type) (session_id : option string),
      append_only (session_store w)
        (session_store (snd (get_or_create_session_id (E:=E) env session_id w))))
  /\ (forall (E : Type) (sid r c : string),
        append_only (session_store w)
          (session_store (snd (add_to_session_history (E:=E) env sid r c w))))
  /\ (forall sid : string, snd (get_session sid w) = w)
  /\ snd (list_sessions w) = w
  /\ snd (health_check env w) = w
  /\ (forall sid : string,
        append_only (session_store w) (session_store (snd (delete_session sid w)))
        /\ forall other : string,
             other <> sid ->
             session_store (snd (delete_session sid w)) !! other
             = session_store w !! other)
  /\ (forall (agent : Agent) (message sid : string),
        append_only (session_store w)
          (session_store (snd (run_relay env agent message sid w))))
  /\ (forall request : ChatRequest,
        append_only (session_store w)
          (session_store (snd (chat_stream env request w)))).
Proof.
  repeat split.
  - intros E session_id. apply extends_append_only, get_or_create_extends.
  - intros E sid r c. rewrite add_to_session_history_eq.
    apply extends_append_only, extends_appended.
  - intros sid. unfold get_session. unfold_monad.
    destruct (session_store w !! sid); reflexivity.
  - unfold delete_session. unfold_monad.
    destruct (session_store w !! sid); simpl.
    + apply append_only_delete.
    + apply extends_append_only, extends_refl.
  - intros other Hne. unfold delete_session. unfold_monad.
    destruct (session_store w !! sid); simpl; [|reflexivity].
    apply lookup_delete_ne. congruence.
  - intros agent message sid. rewrite run_relay_eq.
    apply extends_append_only, relay_extends.
  - intros request. apply extends_append_only, chat_stream_extends.
Qed.



(** * Further properties of the HTTP surface *)

Section EndpointFacts.

Variable env : Env.

Lemma world_eta (w : World) :
  {| session_store := session_store w;
     now_calls := now_calls w;
     uuid_calls := uuid_calls w |} = w.
Proof. destruct w; reflexivity. Qed.

Lemma history_of_resolved_world (sid : string) (n : nat) (w : World) :
  history_of (resolved_world sid n w) sid = history_of w sid.
Proof. unfold history_of at 1. simpl. rewrite lookup_insert_eq. reflexivity. Qed.

Lemma lookup_resolved_world (sid other : string) (n : nat) (w : World) :
  session_store (resolved_world sid n w) !! other
  = if decide (sid = other) then Some (history_of w sid) else session_store w !! other.
Proof. simpl. apply lookup_insert. Qed.

(** Histories that exist are left as they are by resolving an id. *)
Lemma lookup_resolved_world_known (sid other : string) (n : nat) (w : World)
    (h : list Message) :
  session_store w !! other = Some h ->
  session_store (resolved_world sid n w) !! other = Some h.
Proof.
  intros Hs. rewrite lookup_resolved_world. case_decide as Heq; [|exact Hs].
  subst other. unfold history_of. rewrite Hs. reflexivity.
Qed.

(** The exact state [get_or_create_session_id] leaves: the clock is not
    read, and the generator is read only when the id is not usable. *)
Lemma get_or_create_world (E : Type) (session_id : option string) (w : World) :
  exists n : nat,
    get_or_create_session_id (E:=E) env session_id w
    = (Ok (resolved_id env session_id w),
       resolved_world (resolved_id env session_id w) n w)
    /\ resolved_id env session_id w <> ""
    /\ n = (if truthy_opt session_id then uuid_calls w else S (uuid_calls w)).
Proof.
  destruct (truthy_opt session_id) eqn:Ht.
  - destruct session_id as [sid|]; [|discriminate]. simpl in Ht.
    assert (Hne : sid <> "") by (apply truthy_spec, Ht).
    assert (Hres : resolved_id env (Some sid) w = sid)
      by (destruct sid; [discriminate | reflexivity]).
    rewrite Hres. exists (uuid_calls w). split; [|auto].
    unfold resolved_world, history_of.
    destruct (session_store w !! sid) as [h|] eqn:Hs; simpl.
    + rewrite (get_or_create_known env E sid h w Hne Hs).
      rewrite insert_id by exact Hs. rewrite world_eta. reflexivity.
    + rewrite (get_or_create_unknown env E sid w Hne Hs). reflexivity.
  - assert (Hres : resolved_id env session_id w = str_uuid (uuid4 env (uuid_calls w)))
      by (destruct session_id as [[|a s]|]; simpl in *; congruence).
    rewrite Hres. exists (S (uuid_calls w)).
    rewrite (get_or_create_generated env E session_id w Ht).
    split; [reflexivity|]. split; [apply str_uuid_nonempty | reflexivity].
Qed.

(** The three ways [chat_stream] ends. *)
Lemma chat_stream_cases (request : ChatRequest) (w : World) :
  (truthy_opt (GROQ_API_KEY env) = false
   /\ chat_stream env request w
      = (Raise (HTTPException 500 "GROQ_API_KEY missing"), w))
  \/ (truthy_opt (GROQ_API_KEY env) = true
      /\ exists n : nat,
           let sid := resolved_id env (req_session_id request) w in
           let w1 := resolved_world sid n w in
           let cfg := agent_config (base_instructions ++ context_block (history_of w sid)) in
           sid <> ""
           /\ ((exists e : Exc,
                  Agent_init env cfg = Raise e
                  /\ chat_stream env request w
                     = (Raise (HTTPException 500
                                 ("Agent creation failed: " +:+ str e)), w1))
               \/ (exists agent : Agent,
                     Agent_init env cfg = Ok agent
                     /\ chat_stream env request w
                        = (Ok (StreamingResponse agent (message request) sid), w1)))).
Proof.
  destruct (truthy_opt (GROQ_API_KEY env)) eqn:Hkey.
  2: { left. split; [reflexivity|]. unfold chat_stream. rewrite Hkey. reflexivity. }
  right. split; [reflexivity|].
  destruct (get_or_create_world HTTPExc (req_session_id request) w)
    as (n & Hgoc & Hne & _).
  exists n. cbv zeta. split; [exact Hne|].
  assert (Hrun :
    chat_stream env request w
    = match Agent_init env
              (agent_config
                 (base_instructions
                  ++ context_block
                       (history_of w (resolved_id env (req_session_id request) w))))
      with
      | Ok agent =>
          (Ok (StreamingResponse agent (message request)
                 (resolved_id env (req_session_id request) w)),
           resolved_world (resolved_id env (req_session_id request) w) n w)
      | Raise e =>
          (Raise (HTTPException 500 ("Agent creation failed: " +:+ str e)),
           resolved_world (resolved_id env (req_session_id request) w) n w)
      end).
  { unfold chat_stream. rewrite Hkey. cbn [negb]. unfold bind at 1. rewrite Hgoc.
    unfold bind, try_except. rewrite create_research_agent_eq.
    rewrite history_of_resolved_world.
    fold (context_block (history_of w (resolved_id env (req_session_id request) w))).
    destruct (Agent_init env _); reflexivity. }
  rewrite Hrun.
  destruct (Agent_init env _) as [agent|e].
  - right. exists agent. split; reflexivity.
  - left. exists e. split; reflexivity.
Qed.

End EndpointFacts.

(** X1: POST /chat fails only with status 422 or 500.  A body with an empty
    message does not validate and is answered 422, and a key that is missing
    or empty is answered 500, both before anything is done to the state.
    Otherwise the response streams the body's message for the id the
    request resolves to, which is never empty and names a session from then
    on, with the agent the framework built from the base instructions and
    that session's context block.  No history that exists is touched, and
    the clock is not read. *)
Theorem post_chat_outcomes (env : Env) (body_message : string) (session_id : option string)
    (w : World) :
  (body_message = "" ->
     post_chat env body_message session_id w = (Raise RequestValidationError, w))
  /\ (body_message <> "" ->
      truthy_opt (GROQ_API_KEY env) = false ->
      post_chat env body_message session_id w
      = (Raise (HandlerError (HTTPException 500 "GROQ_API_KEY missing")), w))
  /\ match fst (post_chat env body_message session_id w) with
     | Raise e =>
         (status_code_of e = 422 /\ body_message = "")
         \/ (status_code_of e = 500 /\ body_message <> "")
     | Ok (StreamingResponse agent msg sid) =>
         msg = body_message
         /\ body_message <> ""
         /\ truthy_opt (GROQ_API_KEY env) = true
         /\ sid = resolved_id env session_id w
         /\ sid <> ""
         /\ session_store (snd (post_chat env body_message session_id w)) !! sid
            = Some (history_of w sid)
         /\ exists cfg : AgentConfig,
              Agent_init env cfg = Ok agent
              /\ instructions cfg
                 = base_instructions ++ context_block (history_of w sid)
     | Ok _ => False
     end
  /\ (forall (sid : string) (h : list Message),
        session_store w !! sid = Some h ->
        session_store (snd (post_chat env body_message session_id w)) !! sid = Some h)
  /\ now_calls (snd (post_chat env body_message session_id w)) = now_calls w.
Proof.
  unfold post_chat, ChatRequest_validate.
  destruct body_message as [|a rest_of_message] eqn:Hmsg.
  { cbn. split; [reflexivity|]. split; [congruence|].
    split; [left; split; reflexivity|]. split; [auto | reflexivity]. }
  cbn [String.length Nat.leb]. rewrite <- Hmsg.
  assert (Hne : body_message <> "") by (rewrite Hmsg; discriminate).
  split; [intros ->; congruence|].
  unfold try_except.
  destruct (chat_stream_cases env (mkChatRequest body_message session_id) w)
    as [[Hkey Hrun] | [Hkey (n & Hsid & [(e & Hinit & Hrun) | (agent & Hinit & Hrun)])]];
    rewrite Hrun; cbn [fst snd raise status_code_of req_session_id message]
      in *.
  - split; [reflexivity|]. split; [right; split; [reflexivity | exact Hne]|].
    split; [auto | reflexivity].
  - split; [congruence|]. split; [right; split; [reflexivity | exact Hne]|].
    split; [|reflexivity]. intros sid h Hs.
    apply (lookup_resolved_world_known _ sid n w h Hs).
  - split; [congruence|]. split.
    + split; [reflexivity|]. split; [exact Hne|]. split; [exact Hkey|].
      split; [reflexivity|]. split; [exact Hsid|].
      split; [apply lookup_insert_eq|].
      eexists. split; [exact Hinit | reflexivity].
    + split; [|reflexivity]. intros sid h Hs.
      apply (lookup_resolved_world_known _ sid n w h Hs).
Qed.

Lemma post_chat_outcomes_witness :
  post_chat Examples.env_ok "" (Some "fresh") Examples.world_s1
  = (Raise RequestValidationError, Examples.world_s1)
  /\ "hi" <> ""
  /\ truthy_opt (GROQ_API_KEY (mkEnv (fun n => Z.of_nat n) (fun n => N.of_nat n)
                                 (Some "") (fun _ => Raise (Exception "unused")))) = false
  /\ post_chat (mkEnv (fun n => Z.of_nat n) (fun n => N.of_nat n)
                  (Some "") (fun _ => Raise (Exception "unused")))
       "hi" (Some "fresh") Examples.world_s1
     = (Raise (HandlerError (HTTPException 500 "GROQ_API_KEY missing")),
        Examples.world_s1).
Proof.
  assert (H1 : "hi" <> "") by discriminate.
  assert (H2 : truthy_opt (GROQ_API_KEY (mkEnv (fun n => Z.of_nat n)
                 (fun n => N.of_nat n) (Some "")
                 (fun _ => Raise (Exception "unused")))) = false) by reflexivity.
  split; [exact (proj1 (post_chat_outcomes Examples.env_ok "" (Some "fresh")
                          Examples.world_s1) eq_refl)|].
  split; [exact H1|]. split; [exact H2|].
  exact (proj1 (proj2 (post_chat_outcomes _ "hi" (Some "fresh") Examples.world_s1))
           H1 H2).
Defined.

(** X2: a chat request served to the end.  When [chat_stream] answers with
    a stream, the first event of that stream is [start] with the session id
    of the response, and [get_session] on that id then returns the history
    the session had before the request, the [user] entry with the request's
    message, and after it nothing or one [assistant] entry with a non-empty
    text, which is there only if the stream ended with [done]. *)
Theorem chat_then_relay_then_get (env : Env) (request : ChatRequest) (w w1 : World)
    (agent : Agent) (sid : string) :
  chat_stream env request w
  = (Ok (StreamingResponse agent (message request) sid), w1) ->
  head (fst (run_relay env agent (message request) sid w1)) = Some (EvStart sid)
  /\ exists tail : list Message,
       get_session sid (snd (run_relay env agent (message request) sid w1))
       = (Ok (SessionResponse sid
                (history_of w sid
                 ++ mkMessage "user" (message request) (datetime_now env (now_calls w))
                 :: tail)),
          snd (run_relay env agent (message request) sid w1))
       /\ (tail = []
           \/ exists reply : string,
                reply <> ""
                /\ tail = [mkMessage "assistant" reply (datetime_now env (S (now_calls w)))]
                /\ last (fst (run_relay env agent (message request) sid w1))
                   = Some (EvDone sid)).
Proof.
  intros Hchat.
  destruct (chat_stream_cases env request w)
    as [[_ Hrun] | [_ (n & _ & [(e & _ & Hrun) | (agent' & _ & Hrun)])]];
    rewrite Hrun in Hchat; try discriminate.
  injection Hchat as -> <- <-.
  set (sid := resolved_id env (req_session_id request) w).
  rewrite run_relay_eq. simpl.
  split; [unfold relay_events; destruct (run agent (message request)); reflexivity|].
  assert (Hget : forall (w2 : World) (h : list Message),
            session_store w2 !! sid = Some h ->
            get_session sid w2 = (Ok (SessionResponse sid h), w2)).
  { intros w2 h Hs. unfold get_session, bind, get_store, ret. rewrite Hs. reflexivity. }
  assert (Huser : session_store
                    (appended env sid "user" (message request) (resolved_world sid n w))
                  !! sid
                  = Some (history_of w sid
                          ++ [mkMessage "user" (message request)
                                (datetime_now env (now_calls w))])).
  { simpl. rewrite lookup_insert_eq, history_of_resolved_world. reflexivity. }
  unfold relay_world, relay_events.
  destruct (run agent (message request)) as [g|e].
  2: { exists []. split; [apply Hget, Huser | left; reflexivity]. }
  destruct (raised g) as [e|].
  { exists []. split; [apply Hget, Huser | left; reflexivity]. }
  destruct (truthy (join (fragments g))) eqn:Ht.
  2: { exists []. split; [apply Hget, Huser | left; reflexivity]. }
  exists [mkMessage "assistant" (join (fragments g)) (datetime_now env (S (now_calls w)))].
  split.
  - apply Hget. simpl. rewrite lookup_insert_eq.
    unfold history_of at 1. simpl. rewrite lookup_insert_eq.
    cbn [from_option id]. rewrite history_of_resolved_world, <- app_assoc. reflexivity.
  - right. exists (join (fragments g)).
    split; [apply truthy_spec, Ht|]. split; [reflexivity|].
    rewrite app_comm_cons. apply last_snoc.
Qed.

Lemma chat_then_relay_then_get_witness :
  chat_stream Examples.env_ok (mkChatRequest "hi" None) initial_world
  = (Ok (StreamingResponse
           {| config := agent_config base_instructions; run := fun _ => Ok SStop |}
           "hi" "00000000-0000-0000-0000-000000000000"),
     resolved_world "00000000-0000-0000-0000-000000000000" 1 initial_world)
  /\ head (fst (run_relay Examples.env_ok
                  {| config := agent_config base_instructions; run := fun _ => Ok SStop |}
                  "hi" "00000000-0000-0000-0000-000000000000"
                  (resolved_world "00000000-0000-0000-0000-000000000000" 1 initial_world)))
     = Some (EvStart "00000000-0000-0000-0000-000000000000").
Proof.
  assert (H : chat_stream Examples.env_ok (mkChatRequest "hi" None) initial_world
              = (Ok (StreamingResponse
                       {| config := agent_config base_instructions;
                          run := fun _ => Ok SStop |}
                       "hi" "00000000-0000-0000-0000-000000000000"),
                 resolved_world "00000000-0000-0000-0000-000000000000" 1 initial_world))
    by (vm_compute; reflexivity).
  split; [exact H|].
  exact (proj1 (chat_then_relay_then_get Examples.env_ok (mkChatRequest "hi" None)
                  initial_world _ _ _ H)).
Defined.

(** X3: append, then read back.  After [add_to_session_history] the
    session exists, whether it did before or not, and [get_session] returns
    its former history followed by the new entry; what [get_session]
    returns for any other id is what it returned before. *)
Theorem append_then_get_session (env : Env) (E : Type) (sid r c : string) (w : World) :
  exists w' : World,
    add_to_session_history (E:=E) env sid r c w = (Ok tt, w')
    /\ get_session sid w'
       = (Ok (SessionResponse sid
                (history_of w sid ++ [mkMessage r c (datetime_now env (now_calls w))])),
          w')
    /\ (forall other : string,
          other <> sid ->
          fst (get_session other w') = fst (get_session other w)).
Proof.
  exists (appended env sid r c w).
  split; [apply add_to_session_history_eq|]. split.
  - unfold get_session, bind, get_store, ret. simpl.
    rewrite lookup_insert_eq. reflexivity.
  - intros other Hne. unfold get_session, bind, get_store, ret, raise.
    rewrite (lookup_appended_ne env sid other r c w Hne).
    destruct (session_store w !! other); reflexivity.
Qed.

(** X4: the number GET /health reports is the number of sessions in the
    store: zero on a fresh process; one more once an id that named no
    session has been resolved, and the same when it named one; one less once
    an existing session has been deleted, and the same when the delete
    answered 404; one more once the relay has run for an id that named no
    session, and the same otherwise. *)
Theorem reported_sessions_counts (env : Env) (w : World) :
  reported_sessions env w = size (session_store w)
  /\ reported_sessions env initial_world = 0%nat
  /\ (forall (E : Type) (session_id : option string),
        reported_sessions env (snd (get_or_create_session_id (E:=E) env session_id w))
        = if contains (session_store w) (resolved_id env session_id w)
          then reported_sessions env w
          else S (reported_sessions env w))
  /\ (forall sid : string,
        reported_sessions env (snd (delete_session sid w))
        = if contains (session_store w) sid
          then Nat.pred (reported_sessions env w)
          else reported_sessions env w)
  /\ (forall (agent : Agent) (message sid : string),
        reported_sessions env (snd (run_relay env agent message sid w))
        = if contains (session_store w) sid
          then reported_sessions env w
          else S (reported_sessions env w)).
Proof.
  assert (Hrep : forall w0, reported_sessions env w0 = size (session_store w0))
    by reflexivity.
  assert (Happ : forall sid r c w0,
            size (session_store (appended env sid r c w0))
            = if contains (session_store w0) sid
              then size (session_store w0) else S (size (session_store w0))).
  { intros sid r c w0. unfold appended, contains. simpl. rewrite map_size_insert.
    destruct (session_store w0 !! sid); reflexivity. }
  assert (Hin : forall sid r c w0,
            contains (session_store (appended env sid r c w0)) sid = true).
  { intros sid r c w0. unfold contains, appended. simpl.
    rewrite lookup_insert_eq. reflexivity. }
  split; [apply Hrep|]. split; [reflexivity|]. rewrite !Hrep. split; [|split].
  - intros E session_id.
    destruct (get_or_create_world env E session_id w) as (n & -> & _ & _).
    rewrite Hrep. simpl. rewrite map_size_insert. unfold contains.
    destruct (session_store w !! resolved_id env session_id w); reflexivity.
  - intros sid. rewrite Hrep. unfold delete_session. unfold_monad.
    destruct (session_store w !! sid) eqn:Hs; simpl; [|reflexivity].
    rewrite map_size_delete, Hs. reflexivity.
  - intros agent message sid. rewrite Hrep, run_relay_eq. simpl. unfold relay_world.
    destruct (run agent message) as [g|e]; [|apply Happ].
    destruct (raised g); [apply Happ|].
    destruct (truthy (join (fragments g))); [|apply Happ].
    rewrite Happ, Hin. apply Happ.
Qed.

(** X5: GET /sessions lists exactly one summary per session of the store:
    as many summaries as /health reports sessions, no session id twice, and
    a summary is listed exactly when its id names a session whose history
    has that many entries and whose last entry, if any, carries that
    timestamp. *)
Theorem list_sessions_summaries (env : Env) (w : World) :
  snd (list_sessions w) = w
  /\ length (listed_sessions w) = reported_sessions env w
  /\ NoDup (map info_session_id (listed_sessions w))
  /\ (forall info : SessionInfo,
        In info (listed_sessions w)
        <-> exists h : list Message,
              session_store w !! info_session_id info = Some h
              /\ message_count info = length h
              /\ last_message info = timestamp <$> last h).
Proof.
  assert (Hl : listed_sessions w
               = map (fun '(session_id, history) =>
                        {| info_session_id := session_id;
                           message_count := length history;
                           last_message := timestamp <$> last history |})
                     (map_to_list (session_store w))) by reflexivity.
  split; [reflexivity|]. rewrite Hl. split; [|split].
  - rewrite length_map, length_map_to_list. reflexivity.
  - rewrite map_map.
    erewrite map_ext; [apply (NoDup_fst_map_to_list (session_store w))|].
    intros [sid h]. reflexivity.
  - intros info. rewrite in_map_iff. split.
    + intros ([sid h] & <- & Hin). exists h. simpl.
      apply list_elem_of_In, elem_of_map_to_list in Hin. auto.
    + intros (h & Hs & Hc & Hlast).
      exists (info_session_id info, h). split.
      * destruct info as [sid cnt lm]. simpl in *. subst. reflexivity.
      * apply list_elem_of_In, elem_of_map_to_list. exact Hs.
Qed.

(** X6: resolving is idempotent.  Whatever id [get_or_create_session_id]
    was given, resolving the id it returned once more returns that id again
    and changes nothing; the first call does not read the clock, and it
    reads the uuid generator exactly when the id it was given is absent or
    empty. *)
Theorem get_or_create_session_id_idempotent (env : Env) (E : Type)
    (session_id : option string) (w : World) :
  exists (sid : string) (w' : World),
    get_or_create_session_id (E:=E) env session_id w = (Ok sid, w')
    /\ get_or_create_session_id (E:=E) env (Some sid) w' = (Ok sid, w')
    /\ now_calls w' = now_calls w
    /\ uuid_calls w'
       = if truthy_opt session_id then uuid_calls w else S (uuid_calls w).
Proof.
  destruct (get_or_create_world env E session_id w) as (n & Hrun & Hne & Hn).
  eexists _, _. split; [exact Hrun|]. split; [|split; [reflexivity | exact Hn]].
  apply (get_or_create_known env E _ (history_of w (resolved_id env session_id w)));
    [exact Hne|].
  simpl. apply lookup_insert_eq.
Qed.

(** X7: a deleted session does not come back with its history.  After an
    existing session is deleted, resolving the same non-empty id creates it
    anew and [get_session] returns an empty history. *)
Theorem delete_then_resolve_is_empty (env : Env) (E : Type) (sid : string)
    (h : list Message) (w : World) :
  sid <> "" ->
  session_store w !! sid = Some h ->
  exists w' : World,
    get_or_create_session_id (E:=E) env (Some sid) (snd (delete_session sid w))
    = (Ok sid, w')
    /\ get_session sid w' = (Ok (SessionResponse sid []), w')
    /\ (forall other : string,
          other <> sid -> session_store w' !! other = session_store w !! other).
Proof.
  intros Hne Hs.
  assert (Hdel : snd (delete_session sid w) = set_store (delete sid) w).
  { unfold delete_session. unfold_monad. rewrite Hs. reflexivity. }
  rewrite Hdel.
  assert (Hgone : session_store (set_store (delete sid) w) !! sid = None)
    by (simpl; apply lookup_delete_eq).
  exists (set_store <[sid := []]> (set_store (delete sid) w)).
  split; [apply get_or_create_unknown; assumption|]. split.
  - unfold get_session. unfold_monad. rewrite lookup_insert_eq. reflexivity.
  - intros other Hother. simpl.
    rewrite lookup_insert_ne, lookup_delete_ne by congruence. reflexivity.
Qed.

Lemma delete_then_resolve_is_empty_witness :
  "s1" <> ""
  /\ session_store Examples.world_s1 !! "s1"
     = Some [mkMessage "user" "hi" 0; mkMessage "assistant" "Hello" 1]
  /\ exists w' : World,
       get_or_create_session_id (E:=Exc) Examples.env_ok (Some "s1")
         (snd (delete_session "s1" Examples.world_s1)) = (Ok "s1", w')
       /\ get_session "s1" w' = (Ok (SessionResponse "s1" []), w').
Proof.
  assert (H1 : "s1" <> "") by discriminate.
  assert (H2 : session_store Examples.world_s1 !! "s1"
               = Some [mkMessage "user" "hi" 0; mkMessage "assistant" "Hello" 1])
    by (vm_compute; reflexivity).
  split; [exact H1|]. split; [exact H2|].
  destruct (delete_then_resolve_is_empty Examples.env_ok Exc "s1" _
              Examples.world_s1 H1 H2) as (w' & Hrun & Hget & _).
  exists w'. split; [exact Hrun | exact Hget].
Defined.

(** * Further properties of the relay and of the context it feeds *)


Lemma join_chunk_texts (g : Stream) :
  join (fragments g) = join (map chunk_text (chunks g)).
Proof.
  induction g as [| e | chunk rest IH]; simpl; try reflexivity.
  destruct (truthy (chunk_text chunk)) eqn:Ht; simpl; [rewrite IH; reflexivity|].
  destruct (chunk_text chunk); [exact IH | discriminate].
Qed.


Lemma relay_events_shape (agent : Agent) (message sid : string) :
  exists (frags : list string) (terminal : Event),
    relay_events agent message sid = EvStart sid :: map EvToken frags ++ [terminal]
    /\ Forall (fun c => truthy c = true) frags
    /\ (forall c, terminal <> EvToken c)
    /\ match run agent message with
       | Ok g => frags = fragments g
                 /\ terminal = match raised g with
                               | Some e => EvError (str e)
                               | None => EvDone sid
                               end
       | Raise e => frags = [] /\ terminal = EvError (str e)
       end.
Proof.
  unfold relay_events. destruct (run agent message) as [g|e].
  - exists (fragments g). eexists. split; [reflexivity|].
    split; [apply fragments_truthy|]. split; [|auto].
    destruct (raised g); discriminate.
  - exists [], (EvError (str e)). split; [reflexivity|].
    split; [constructor|]. split; [discriminate | auto].
Qed.

(** X8: a run of the relay writes to one session only.  Every other
    session is as it was, the session streamed to exists afterwards even if
    it did not before, the uuid generator is not read, and the clock is read
    once, or twice when the run ended with [done] after at least one
    [token]. *)
Theorem relay_touches_one_session (env : Env) (agent : Agent) (message sid : string)
    (w : World) :
  (forall other : string,
      other <> sid ->
      session_store (snd (run_relay env agent message sid w)) !! other
      = session_store w !! other)
  /\ is_Some (session_store (snd (run_relay env agent message sid w)) !! sid)
  /\ uuid_calls (snd (run_relay env agent message sid w)) = uuid_calls w
  /\ now_calls (snd (run_relay env agent message sid w))
     = match last (fst (run_relay env agent message sid w)),
             token_fragments (fst (run_relay env agent message sid w)) with
       | Some (EvDone _), _ :: _ => S (S (now_calls w))
       | _, _ => S (now_calls w)
       end.
Proof.
  rewrite run_relay_eq. simpl.
  destruct (relay_events_shape agent message sid)
    as (frags & terminal & Hev & Htr & Hterm & Hrun).
  rewrite Hev, app_comm_cons, last_snoc, <- app_comm_cons.
  rewrite token_fragments_shape by exact Hterm.
  unfold relay_world.
  assert (H1 : forall u, is_Some (session_store (appended env sid "user" message u) !! sid))
    by (intros u; simpl; rewrite lookup_insert_eq; eauto).
  destruct (run agent message) as [g|e].
  - destruct Hrun as [-> ->]. destruct (raised g) as [e|].
    + repeat split; auto. intros other Hne. apply lookup_appended_ne, Hne.
    + rewrite (join_truthy _ (fragments_truthy g)).
      destruct (fragments g) as [|c frags]; simpl.
      * repeat split; auto.
        -- intros other Hne. apply lookup_insert_ne. congruence.
        -- rewrite lookup_insert_eq. eauto.
      * repeat split; auto.
        -- intros other Hne. rewrite !lookup_insert_ne by congruence. reflexivity.
        -- rewrite lookup_insert_eq. eauto.
  - destruct Hrun as [-> ->].
    repeat split; auto. intros other Hne. apply lookup_appended_ne, Hne.
Qed.

(** X9: the relay never emits an empty [token], and skipping the chunks
    without text loses nothing: the fragments of the emitted [token] events,
    concatenated, are the texts of all chunks the generator yielded,
    concatenated. *)
Theorem relay_tokens_nonempty (env : Env) (agent : Agent) (message sid : string)
    (w : World) :
  (forall c : string,
      In (EvToken c) (fst (run_relay env agent message sid w)) -> c <> "")
  /\ (forall g : Stream,
        run agent message = Ok g ->
        join (token_fragments (fst (run_relay env agent message sid w)))
        = join (map chunk_text (chunks g))
        /\ (length (token_fragments (fst (run_relay env agent message sid w)))
            <= length (chunks g))%nat).
Proof.
  rewrite run_relay_eq. simpl.
  destruct (relay_events_shape agent message sid)
    as (frags & terminal & Hev & Htr & Hterm & Hrun).
  rewrite Hev. split.
  - intros c [Hc | Hc]; [discriminate|].
    apply in_app_or in Hc as [Hc | [Hc | []]].
    + apply in_map_iff in Hc as (c' & [= ->] & Hin).
      apply truthy_spec. rewrite Forall_forall in Htr.
      apply Htr, list_elem_of_In, Hin.
    + exfalso. apply (Hterm c). congruence.
  - intros g Hg. rewrite token_fragments_shape by exact Hterm.
    rewrite Hg in Hrun. destruct Hrun as [-> _].
    split; [apply join_chunk_texts|].
    clear. induction g as [| e | chunk rest IH]; simpl; try lia.
    destruct (truthy (chunk_text chunk)); simpl; lia.
Qed.

Lemma relay_tokens_nonempty_witness :
  join (token_fragments
          (fst (run_relay Examples.env_ok Examples.agent_breaks "hi" "s1" initial_world)))
  = "Hello".
Proof.
  rewrite (proj1 (proj2 (relay_tokens_nonempty Examples.env_ok Examples.agent_breaks
                           "hi" "s1" initial_world) _ eq_refl)).
  reflexivity.
Defined.



(** * Invariants of the states the endpoints can reach *)

Section Reachable.

Variable env : Env.

Lemma relay_steps (agent : Agent) (message sid : string) (w : World) :
  sid <> "" ->
  rtc (store_step env) w (relay_world env agent message sid w).
Proof.
  intros Hne. unfold relay_world.
  assert (H1 : store_step env w (appended env sid "user" message w))
    by (apply step_append; [exact Hne | left; reflexivity]).
  destruct (run agent message) as [g|e]; [|apply rtc_once, H1].
  destruct (raised g); [apply rtc_once, H1|].
  destruct (truthy (join (fragments g))) eqn:Ht; [|apply rtc_once, H1].
  eapply rtc_l; [exact H1|]. apply rtc_once, step_append; [exact Hne|].
  right. split; [reflexivity | apply truthy_spec, Ht].
Qed.

Lemma serve_steps (req : Request) (w : World) :
  rtc (store_step env) w (serve env req w).
Proof.
  destruct req as [request | | sid | sid |]; simpl.
  - destruct (chat_stream_cases env request w)
      as [[_ Hrun] | [_ (n & Hne & [(e & _ & Hrun) | (agent & _ & Hrun)])]];
      rewrite Hrun.
    + apply rtc_refl.
    + apply rtc_once, step_create, Hne.
    + eapply rtc_l; [apply (step_create env _ n w Hne)|].
      rewrite run_relay_eq. apply relay_steps, Hne.
  - apply rtc_refl.
  - unfold get_session. unfold_monad.
    destruct (session_store w !! sid); apply rtc_refl.
  - unfold delete_session. unfold_monad.
    destruct (session_store w !! sid); simpl; [|apply rtc_refl].
    apply rtc_once, (step_delete env sid w).
  - apply rtc_refl.
Qed.

Lemma serve_all_steps (reqs : list Request) :
  forall w : World, rtc (store_step env) w (serve_all env reqs w).
Proof.
  induction reqs as [|req reqs IH]; intros w; simpl.
  - apply rtc_refl.
  - eapply rtc_trans; [apply serve_steps | apply IH].
Qed.

(** What every write keeps, every sequence of requests keeps. *)
Lemma serve_all_invariant (P : World -> Prop) :
  (forall w w' : World, store_step env w w' -> P w -> P w') ->
  forall (reqs : list Request) (w : World), P w -> P (serve_all env reqs w).
Proof.
  intros Hstep reqs w Hw.
  induction (serve_all_steps reqs w) as [|w0 w1 w2 H01 _ IH]; [exact Hw|].
  apply IH, (Hstep w0 w1 H01 Hw).
Qed.

Lemma nondecreasing_snoc (l : list Z) (x : Z) :
  nondecreasing l -> Forall (fun y => y <= x) l -> nondecreasing (l ++ [x]).
Proof.
  intros Hl Hle i j a b Hij Hi Hj.
  destruct (decide (j < length l)%nat) as [Hjl | Hjl].
  - rewrite lookup_app_l in Hi, Hj by lia. apply (Hl i j a b Hij Hi Hj).
  - rewrite lookup_app_r in Hj by lia.
    destruct (j - length l)%nat as [|k] eqn:Hk; simpl in Hj; [|discriminate].
    injection Hj as <-.
    destruct (decide (i < length l)%nat) as [Hil | Hil].
    + rewrite lookup_app_l in Hi by lia.
      rewrite Forall_forall in Hle. apply Hle.
      apply list_elem_of_lookup. eauto.
    + rewrite lookup_app_r in Hi by lia.
      replace (i - length l)%nat with 0%nat in Hi by lia.
      simpl in Hi. injection Hi as <-. lia.
Qed.

End Reachable.

(** X11: in every state the endpoints reach from a fresh process, requests
    being served one after the other, the empty string names no session:
    GET and DELETE on the empty id answer 404. *)
Theorem reachable_store_wf (env : Env) (reqs : list Request) :
  store_wf (serve_all env reqs initial_world)
  /\ fst (get_session "" (serve_all env reqs initial_world))
     = Raise (HTTPException 404 "Session not found")
  /\ fst (delete_session "" (serve_all env reqs initial_world))
     = Raise (HTTPException 404 "Session not found").
Proof.
  assert (Hwf : store_wf (serve_all env reqs initial_world)).
  { apply serve_all_invariant; [|reflexivity].
    intros w w' Hstep Hw. unfold store_wf in *.
    destruct Hstep as [sid n w Hne | sid r c w Hne _ | sid w]; simpl.
    - rewrite lookup_insert_ne by exact Hne. exact Hw.
    - rewrite lookup_insert_ne by exact Hne. exact Hw.
    - destruct (decide (sid = "")) as [-> | Hne];
        [apply lookup_delete_eq | rewrite lookup_delete_ne by exact Hne; exact Hw]. }
  split; [exact Hwf|]. unfold store_wf in Hwf.
  unfold get_session, delete_session. unfold_monad. rewrite Hwf. split; reflexivity.
Qed.

(** X12: in every state the endpoints reach from a fresh process, every
    entry of every history has role "user" or role "assistant", and an
    assistant entry never has an empty text. *)
Theorem reachable_roles (env : Env) (reqs : list Request) (sid : string)
    (h : list Message) (m : Message) :
  session_store (serve_all env reqs initial_world) !! sid = Some h ->
  In m h ->
  role m = "user" \/ (role m = "assistant" /\ content m <> "").
Proof.
  revert sid h m.
  apply (serve_all_invariant env
           (fun w => forall sid h m, session_store w !! sid = Some h -> In m h ->
                     role m = "user" \/ (role m = "assistant" /\ content m <> ""))).
  - intros w w' Hstep Hw sid h m Hs Hin.
    destruct Hstep as [sid' n w Hne | sid' r c w Hne Hrole | sid' w]; simpl in Hs.
    + rewrite lookup_insert in Hs. case_decide as Heq; [|eauto].
      injection Hs as <-. unfold history_of in Hin.
      destruct (session_store w !! sid') as [h'|] eqn:Hs'; [eauto | destruct Hin].
    + rewrite lookup_insert in Hs. case_decide as Heq; [|eauto].
      injection Hs as <-. apply in_app_or in Hin as [Hin | [<- | []]].
      * unfold history_of in Hin.
        destruct (session_store w !! sid') as [h'|] eqn:Hs'; [eauto | destruct Hin].
      * exact Hrole.
    + rewrite lookup_delete in Hs. case_decide; [discriminate | eauto].
  - intros sid h m Hs. simpl in Hs. rewrite lookup_empty in Hs. discriminate.
Qed.

Lemma reachable_roles_witness :
  session_store
    (serve_all Examples.env_ok [ReqChat (mkChatRequest "hi" (Some "s1"))] initial_world)
  !! "s1" = Some [mkMessage "user" "hi" 0]
  /\ In (mkMessage "user" "hi" 0) [mkMessage "user" "hi" 0]
  /\ (role (mkMessage "user" "hi" 0) = "user"
      \/ (role (mkMessage "user" "hi" 0) = "assistant"
          /\ content (mkMessage "user" "hi" 0) <> "")).
Proof.
  assert (H1 : session_store
                 (serve_all Examples.env_ok [ReqChat (mkChatRequest "hi" (Some "s1"))]
                    initial_world) !! "s1" = Some [mkMessage "user" "hi" 0])
    by (vm_compute; reflexivity).
  assert (H2 : In (mkMessage "user" "hi" 0) [mkMessage "user" "hi" 0])
    by (left; reflexivity).
  split; [exact H1|]. split; [exact H2|].
  exact (reachable_roles Examples.env_ok _ "s1" _ _ H1 H2).
Defined.

(** X13: when the clock never goes back, in every state the endpoints reach
    from a fresh process, requests being served one after the other, the
    timestamps of every history are non-decreasing, and each is a reading
    of the clock taken before the current one. *)
Theorem reachable_timestamps_nondecreasing (env : Env) (reqs : list Request)
    (sid : string) (h : list Message) :
  clock_monotone env ->
  session_store (serve_all env reqs initial_world) !! sid = Some h ->
  nondecreasing (map timestamp h)
  /\ stamped_before env (now_calls (serve_all env reqs initial_world)) h.
Proof.
  intros Hmono. revert sid h.
  apply (serve_all_invariant env
           (fun w => forall sid h, session_store w !! sid = Some h ->
                     nondecreasing (map timestamp h)
                     /\ stamped_before env (now_calls w) h)).
  - intros w w' Hstep Hw.
    assert (Hhist : forall sid, nondecreasing (map timestamp (history_of w sid))
                                /\ stamped_before env (now_calls w) (history_of w sid)).
    { intros sid. unfold history_of.
      destruct (session_store w !! sid) as [h|] eqn:Hs; [eauto|]. simpl.
      split; [intros i j x y _ Hi; discriminate | constructor]. }
    intros sid h Hs.
    destruct Hstep as [sid' n w Hne | sid' r c w Hne Hrole | sid' w]; simpl in Hs.
    + rewrite lookup_insert in Hs. case_decide as Heq; [|eauto].
      injection Hs as <-. apply Hhist.
    + assert (Hweak : forall h0, stamped_before env (now_calls w) h0 ->
                                 stamped_before env (S (now_calls w)) h0).
      { intros h0 Hst0. unfold stamped_before in *.
        eapply Forall_impl; [exact Hst0|].
        intros m0 (k & Hk & Hts). exists k. split; [lia | exact Hts]. }
      rewrite lookup_insert in Hs. case_decide as Heq.
      * injection Hs as <-. destruct (Hhist sid') as [Hnd Hst]. split.
        -- rewrite map_app. apply nondecreasing_snoc; [exact Hnd|].
           apply List.Forall_forall. intros y Hy.
           apply in_map_iff in Hy as (m0 & <- & Hm0).
           destruct (proj1 (List.Forall_forall _ _) Hst m0 Hm0) as (k & Hk & ->).
           apply Hmono. lia.
        -- unfold stamped_before. apply Forall_app. split; [apply Hweak, Hst|].
           constructor; [|constructor]. exists (now_calls w).
           split; [simpl; lia | reflexivity].
      * destruct (Hw sid h Hs) as [Hnd Hst]. split; [exact Hnd | apply Hweak, Hst].
    + rewrite lookup_delete in Hs. case_decide; [discriminate | eauto].
  - intros sid h Hs. simpl in Hs. rewrite lookup_empty in Hs. discriminate.
Qed.

Lemma reachable_timestamps_nondecreasing_witness :
  clock_monotone Examples.env_ok
  /\ session_store
       (serve_all Examples.env_ok
          [ReqChat (mkChatRequest "hi" (Some "s1"));
           ReqDeleteSession "s1";
           ReqChat (mkChatRequest "again" (Some "s1"));
           ReqChat (mkChatRequest "more" (Some "s1"))] initial_world)
     !! "s1" = Some [mkMessage "user" "again" 1; mkMessage "user" "more" 2]
  /\ nondecreasing (map timestamp [mkMessage "user" "again" 1; mkMessage "user" "more" 2]).
Proof.
  assert (H1 : clock_monotone Examples.env_ok) by (intros i j Hij; simpl; lia).
  assert (H2 : session_store
       (serve_all Examples.env_ok
          [ReqChat (mkChatRequest "hi" (Some "s1"));
           ReqDeleteSession "s1";
           ReqChat (mkChatRequest "again" (Some "s1"));
           ReqChat (mkChatRequest "more" (Some "s1"))] initial_world)
     !! "s1" = Some [mkMessage "user" "again" 1; mkMessage "user" "more" 2])
    by (vm_compute; reflexivity).
  split; [exact H1|]. split; [exact H2|].
  exact (proj1 (reachable_timestamps_nondecreasing Examples.env_ok _ "s1" _ H1 H2)).
Defined.

(** * custom_tools.py: the URL summariser and the weather tool *)

Module CustomToolsFacts.

Import CustomTools.

Lemma clean_no_line_break (t : pystr) (c : N) :
  In c (clean t) -> c <> LF /\ c <> CR.
Proof.
  unfold clean, replace_char. intros Hc.
  apply in_flat_map in Hc as (x & Hx & Hc).
  destruct (N.eqb x CR) eqn:Hcr; [destruct Hc|].
  destruct Hc as [<- | []]. apply N.eqb_neq in Hcr. split; [|exact Hcr].
  apply in_flat_map in Hx as (y & _ & Hy).
  destruct (N.eqb y LF) eqn:Hlf.
  - destruct Hy as [<- | []]. discriminate.
  - destruct Hy as [<- | []]. apply N.eqb_neq, Hlf.
Qed.

Lemma clean_length (t : pystr) : (length (clean t) <= length t)%nat.
Proof.
  unfold clean, replace_char.
  induction t as [|c t IH]; simpl; [lia|].
  destruct (N.eqb c LF); simpl.
  - change (N.eqb 32 CR) with false. simpl. lia.
  - destruct (N.eqb c CR); simpl; lia.
Qed.

Lemma clean_fixpoint (t : pystr) :
  (forall c, In c t -> c <> LF /\ c <> CR) -> clean t = t.
Proof.
  unfold clean, replace_char.
  induction t as [|c t IH]; intros Hc; [reflexivity|]. simpl.
  destruct (Hc c (or_introl eq_refl)) as [Hlf Hcr].
  apply N.eqb_neq in Hlf, Hcr. rewrite Hlf. simpl. rewrite Hcr. simpl.
  f_equal. apply IH. intros c' Hc'. apply Hc. right. exact Hc'.
Qed.

Lemma firstn_prefix {A} (n : nat) (l : list A) :
  exists rest : list A, l = firstn n l ++ rest.
Proof. exists (skipn n l). symmetry. apply firstn_skipn. Qed.

End CustomToolsFacts.

(** X14: the text [summarize_url] reports has no line break left: every
    line feed of the page has become a space and every carriage return is
    gone, so the text is never longer than the page; a page without line
    breaks is reported as it is (cleaning twice is cleaning once); and a
    page that fits within a non-negative [max_length] is reported whole,
    without the ellipsis. *)
Theorem summarize_url_cleans (requests_get : CustomTools.pystr ->
      Result CustomTools.FetchError CustomTools.HTTPResponse)
    (url : CustomTools.pystr) (response : CustomTools.HTTPResponse) :
  (forall c : N,
      In c (CustomTools.clean (CustomTools.text response)) ->
      c <> CustomTools.LF /\ c <> CustomTools.CR)
  /\ (length (CustomTools.clean (CustomTools.text response))
      <= length (CustomTools.text response))%nat
  /\ CustomTools.clean (CustomTools.clean (CustomTools.text response))
     = CustomTools.clean (CustomTools.text response)
  /\ (forall max_length : Z,
        requests_get url = Ok response ->
        CustomTools.status_error response = None ->
        Z.of_nat (length (CustomTools.clean (CustomTools.text response))) <= max_length ->
        CustomTools.summarize_url requests_get url max_length
        = CustomTools.lit "Content for " ++ url ++ CustomTools.lit ": "
          ++ CustomTools.clean (CustomTools.text response)).
Proof.
  split; [apply CustomToolsFacts.clean_no_line_break|].
  split; [apply CustomToolsFacts.clean_length|].
  split; [apply CustomToolsFacts.clean_fixpoint, CustomToolsFacts.clean_no_line_break|].
  intros max_length Hget Hstatus Hlen.
  unfold CustomTools.summarize_url. rewrite Hget, Hstatus.
  destruct (Z.gtb_spec (Z.of_nat (length (CustomTools.clean (CustomTools.text response))))
              max_length) as [Hgt | _]; [lia | reflexivity].
Qed.

Lemma summarize_url_cleans_witness :
  CustomTools.summarize_url CustomTools.alphabet_page (CustomTools.lit "http://a") 200
  = CustomTools.lit "Content for http://a: abcdefghijklm nopqrstuvwxyz".
Proof.
  rewrite (proj2 (proj2 (proj2
             (summarize_url_cleans CustomTools.alphabet_page (CustomTools.lit "http://a")
                _))) 200 eq_refl eq_refl); [reflexivity|].
  vm_compute. discriminate.
Defined.

(** X15: with a non-negative [max_length] smaller than the cleaned page,
    [summarize_url] answers with a preview whose body is exactly the first
    [max_length] characters of the cleaned page, followed by "...". *)
Theorem summarize_url_preview (requests_get : CustomTools.pystr ->
      Result CustomTools.FetchError CustomTools.HTTPResponse)
    (url : CustomTools.pystr) (response : CustomTools.HTTPResponse) (max_length : Z) :
  requests_get url = Ok response ->
  CustomTools.status_error response = None ->
  0 <= max_length < Z.of_nat (length (CustomTools.clean (CustomTools.text response))) ->
  exists body rest : CustomTools.pystr,
    CustomTools.summarize_url requests_get url max_length
    = CustomTools.lit "Content preview for " ++ url ++ CustomTools.lit ": "
      ++ body ++ CustomTools.lit "..."
    /\ CustomTools.clean (CustomTools.text response) = body ++ rest
    /\ Z.of_nat (length body) = max_length.
Proof.
  intros Hget Hstatus Hlen.
  exists (firstn (Z.to_nat max_length) (CustomTools.clean (CustomTools.text response))),
         (skipn (Z.to_nat max_length) (CustomTools.clean (CustomTools.text response))).
  split; [|split].
  - unfold CustomTools.summarize_url, CustomTools.slice_to. rewrite Hget, Hstatus.
    destruct (Z.gtb_spec (Z.of_nat (length (CustomTools.clean (CustomTools.text response))))
                max_length) as [_ | Hle]; [|lia].
    destruct (Z.leb_spec 0 max_length) as [_ | Hneg]; [reflexivity | lia].
  - symmetry. apply firstn_skipn.
  - rewrite length_firstn. lia.
Qed.

Lemma summarize_url_preview_witness :
  CustomTools.summarize_url CustomTools.alphabet_page (CustomTools.lit "http://a") 5
  = CustomTools.lit "Content preview for http://a: abcde...".
Proof.
  destruct (summarize_url_preview CustomTools.alphabet_page (CustomTools.lit "http://a")
              _ 5 eq_refl eq_refl) as (body & rest & Hrun & _ & _).
  - vm_compute. split; [discriminate | reflexivity].
  - vm_compute. reflexivity.
Defined.

(** X16: a negative [max_length] does not bound the summary.  The preview
    branch is taken whatever the page, and its body is the cleaned page
    without its last [-max_length] characters (empty when the page is that
    short): with [max_length = -1] the summary holds all of the page but
    its last character. *)
Theorem summarize_url_negative_max_length (requests_get : CustomTools.pystr ->
      Result CustomTools.FetchError CustomTools.HTTPResponse)
    (url : CustomTools.pystr) (response : CustomTools.HTTPResponse) (max_length : Z) :
  requests_get url = Ok response ->
  CustomTools.status_error response = None ->
  max_length < 0 ->
  exists body rest : CustomTools.pystr,
    CustomTools.summarize_url requests_get url max_length
    = CustomTools.lit "Content preview for " ++ url ++ CustomTools.lit ": "
      ++ body ++ CustomTools.lit "..."
    /\ CustomTools.clean (CustomTools.text response) = body ++ rest
    /\ length body
       = (length (CustomTools.clean (CustomTools.text response))
          - Z.to_nat (- max_length))%nat
    /\ length rest
       = Nat.min (Z.to_nat (- max_length))
                 (length (CustomTools.clean (CustomTools.text response))).
Proof.
  intros Hget Hstatus Hneg.
  set (content := CustomTools.clean (CustomTools.text response)).
  exists (firstn (length content - Z.to_nat (- max_length)) content),
         (skipn (length content - Z.to_nat (- max_length)) content).
  split; [|split; [|split]].
  - unfold CustomTools.summarize_url, CustomTools.slice_to. rewrite Hget, Hstatus.
    fold content.
    destruct (Z.gtb_spec (Z.of_nat (length content)) max_length) as [_ | Hle]; [|lia].
    destruct (Z.leb_spec 0 max_length) as [Hpos | _]; [lia | reflexivity].
  - symmetry. apply firstn_skipn.
  - rewrite length_firstn. lia.
  - rewrite length_skipn. lia.
Qed.

Lemma summarize_url_negative_max_length_witness :
  CustomTools.summarize_url CustomTools.alphabet_page (CustomTools.lit "http://a") (-1)
  = CustomTools.lit "Content preview for http://a: abcdefghijklm nopqrstuvwxy...".
Proof.
  destruct (summarize_url_negative_max_length CustomTools.alphabet_page
              (CustomTools.lit "http://a") _ (-1) eq_refl eq_refl) as (body & rest & _).
  - reflexivity.
  - vm_compute. reflexivity.
Defined.

(** X17: [get_weather] never reports a missing city.  For the four cities
    of the table, matched exactly, it reports the table's entry; for every
    other city it reports, under that city's name, the conditions the table
    has for Tokyo. *)
Theorem get_weather_unknown_city (city : CustomTools.pystr) :
  ~ In city [CustomTools.lit "Tokyo"; CustomTools.lit "New York";
             CustomTools.lit "London"; CustomTools.lit "Paris"] ->
  exists tokyo : CustomTools.pystr,
    CustomTools.weather_data !! CustomTools.lit "Tokyo" = Some tokyo
    /\ CustomTools.get_weather (CustomTools.lit "Tokyo")
       = CustomTools.lit "Current weather in Tokyo: " ++ tokyo
    /\ CustomTools.get_weather city
       = CustomTools.lit "Current weather in " ++ city
         ++ CustomTools.lit ": Weather data for " ++ city
         ++ CustomTools.lit ": " ++ tokyo.
Proof.
  intros Hnot.
  eexists. split; [vm_compute; reflexivity|]. split; [vm_compute; reflexivity|].
  unfold CustomTools.get_weather.
  match goal with
  | |- context [default _ ?looked_up] => assert (Hmiss : looked_up = None)
  end.
  { unfold CustomTools.weather_data.
    rewrite !lookup_insert_ne, lookup_empty; [reflexivity | ..];
      intros Heq; apply Hnot; rewrite <- Heq; simpl; auto. }
  rewrite Hmiss. reflexivity.
Qed.

Lemma get_weather_unknown_city_witness :
  ~ In (CustomTools.lit "tokyo")
       [CustomTools.lit "Tokyo"; CustomTools.lit "New York";
        CustomTools.lit "London"; CustomTools.lit "Paris"]
  /\ CustomTools.get_weather (CustomTools.lit "tokyo")
     = CustomTools.lit "Current weather in tokyo: Weather data for tokyo: Sunny, 22"
       ++ [CustomTools.degree] ++ CustomTools.lit "C (72" ++ [CustomTools.degree]
       ++ CustomTools.lit "F), Wind: 10 km/h".
Proof.
  assert (H : ~ In (CustomTools.lit "tokyo")
                [CustomTools.lit "Tokyo"; CustomTools.lit "New York";
                 CustomTools.lit "London"; CustomTools.lit "Paris"]).
  { vm_compute. intros [H | [H | [H | [H | []]]]]; discriminate H. }
  split; [exact H|].
  destruct (get_weather_unknown_city _ H) as (tokyo & Htok & _ & Hrun).
  rewrite Hrun. vm_compute in Htok. injection Htok as <-. vm_compute. reflexivity.
Defined.
